(** * Shallow embedding of the viveno-ai creative suite front end

    Covers the prompt builders of the generation service
    ([constructImagePrompt], [constructVideoPrompt]), the video polling
    loop ([generateVideoInternal]), the submit handler of the video
    generator, the subscription-tier persistence of [App], the library
    operations and the prompt history hook; then the rest of the video
    generator (enhancement, the submit button, the image picker, the
    loading messages), the subscription flow of [App], the image services
    and the submit handler of the image tools.

    Strings are Stdlib [string]s (8-bit code units); the JavaScript
    whitespace class [\s] restricted to that range is TAB, LF, VT, FF, CR,
    SPACE and NO-BREAK SPACE (160). *)

From Stdlib Require Import String Ascii List Bool Arith NArith ZArith Lia DecimalString DecimalN.
Import ListNotations.
Open Scope string_scope.

(* ------------------------------------------------------------------ *)
(** ** JavaScript string primitives *)
Module JS.

(** Membership in the class matched by [\s] and stripped by [trim]. *)
Definition is_ws (c : ascii) : bool :=
  match nat_of_ascii c with
  | 9 | 10 | 11 | 12 | 13 | 32 | 160 => true
  | _ => false
  end.

(** Truthiness of a string: only the empty string is falsy. *)
Definition truthy (s : string) : bool :=
  match s with EmptyString => false | _ => true end.

Fixpoint trim_start (s : string) : string :=
  match s with
  | EmptyString => EmptyString
  | String c r => if is_ws c then trim_start r else s
  end.

Fixpoint trim_end (s : string) : string :=
  match s with
  | EmptyString => EmptyString
  | String c r =>
      let r' := trim_end r in
      if is_ws c && negb (truthy r') then EmptyString else String c r'
  end.

(** [s.trim()] *)
Definition trim (s : string) : string := trim_end (trim_start s).

(** [s.replace(c, rep)] with a one-character string pattern: only the
    first occurrence is replaced. *)
Fixpoint replace_first (c : ascii) (rep : string) (s : string) : string :=
  match s with
  | EmptyString => EmptyString
  | String d r => if Ascii.eqb c d then rep ++ r else String d (replace_first c rep r)
  end.

(** [xs.join(sep)] *)
Fixpoint join (sep : string) (xs : list string) : string :=
  match xs with
  | [] => EmptyString
  | [x] => x
  | x :: r => x ++ sep ++ join sep r
  end.

(** The double-quote character as a string, and the hyphen. *)
Definition dq : string := String (ascii_of_nat 34) EmptyString.
Definition hyphen : ascii := ascii_of_nat 45.

(** [s.replace(/\s+/g, ' ')]: every maximal run of whitespace becomes one
    space.  [inrun] records that the previous character was whitespace. *)
Fixpoint collapse_aux (inrun : bool) (s : string) : string :=
  match s with
  | EmptyString => EmptyString
  | String c r =>
      if is_ws c then
        if inrun then collapse_aux true r else String " " (collapse_aux true r)
      else String c (collapse_aux false r)
  end.

Definition collapse_ws (s : string) : string := collapse_aux false s.

End JS.

(* ------------------------------------------------------------------ *)
(** ** Types of [types.ts] used by the service *)

Inductive Language := english | kinyarwanda.

Inductive AIPersona :=
| p_none | photographer | illustrator | cinematographer | vfx_artist
| concept_artist | wildlife_photographer | sci_fi_artist
| food_photographer | architectural_designer.

Inductive Intensity := subtle | balanced | strong.

(* ------------------------------------------------------------------ *)
(** ** Video option types of [types.ts] *)

Inductive VideoStyle := vs_none | vs_cinematic | vs_animated | vs_hyperrealistic | vs_vintage.
Inductive VideoDuration := short | medium | long | one_minute | three_minute.
Inductive CameraMovement := cm_none | pan | zoom_in | zoom_out | drone_shot | static.
Inductive VideoQuality := standard | high.
Inductive VideoFraming := vf_none | close_up | medium_shot | long_shot.
Inductive AspectRatio := ar_1_1 | ar_16_9 | ar_9_16 | ar_4_3 | ar_3_4.
Inductive VideoFPS := fps24 | fps30 | fps60.
Inductive AudioMood := am_none | epic | ambient | lofi | cinematic_tension.

(** The string literals of the union types, as template literals print them. *)
Module Lit.
Definition VideoStyle (s : VideoStyle) : string :=
  match s with
  | vs_none => "none" | vs_cinematic => "cinematic" | vs_animated => "animated"
  | vs_hyperrealistic => "hyperrealistic" | vs_vintage => "vintage"
  end.
Definition CameraMovement (c : CameraMovement) : string :=
  match c with
  | cm_none => "none" | pan => "pan" | zoom_in => "zoom-in" | zoom_out => "zoom-out"
  | drone_shot => "drone-shot" | static => "static"
  end.
Definition VideoFraming (f : VideoFraming) : string :=
  match f with
  | vf_none => "none" | close_up => "close-up" | medium_shot => "medium-shot"
  | long_shot => "long-shot"
  end.
Definition AspectRatio (a : AspectRatio) : string :=
  match a with
  | ar_1_1 => "1:1" | ar_16_9 => "16:9" | ar_9_16 => "9:16" | ar_4_3 => "4:3" | ar_3_4 => "3:4"
  end.
Definition VideoFPS (f : VideoFPS) : string :=
  match f with fps24 => "24" | fps30 => "30" | fps60 => "60" end.
Definition AudioMood (m : AudioMood) : string :=
  match m with
  | am_none => "none" | epic => "epic" | ambient => "ambient" | lofi => "lofi"
  | cinematic_tension => "cinematic-tension"
  end.
End Lit.

(* ------------------------------------------------------------------ *)
(** ** [geminiService]: prompt construction *)
Module Service.
Import JS.

Definition personaInstructions (p : AIPersona) : string :=
  match p with
  | p_none => "As a versatile master artist,"
  | photographer => "As a world-renowned photographer known for capturing stunning detail and emotion,"
  | illustrator => "As a master illustrator with a distinct and creative style,"
  | cinematographer => "As a world-class cinematographer and VFX artist,"
  | vfx_artist => "As a senior VFX artist specializing in photorealistic effects and compositing,"
  | concept_artist => "As a visionary concept artist for AAA video games and blockbuster films,"
  | wildlife_photographer => "As a National Geographic wildlife photographer on assignment,"
  | sci_fi_artist => "As a legendary sci-fi concept artist envisioning futuristic worlds,"
  | food_photographer => "As a world-class food photographer creating delicious, mouth-watering imagery,"
  | architectural_designer => "As a leading architectural designer known for innovative and beautiful structures,"
  end.

Definition intensityMap (i : Intensity) : string :=
  match i with
  | subtle => "with a subtle hint of the specified style."
  | balanced => "with a balanced and clear representation of the specified style."
  | strong => "with an extremely strong, dominant, and stylized representation of the specified style."
  end.

(** [prompts[0]] of an empty array is [undefined], rendered by the
    template literal as the text ["undefined"]. *)
Definition first_prompt (prompts : list string) : string :=
  match prompts with p :: _ => p | [] => "undefined" end.

Definition constructImagePrompt (prompts : list string) (style : string)
    (negativePrompt : string) (language : Language) (persona : AIPersona)
    (styleIntensity : Intensity) : string :=
  let languageInstruction :=
    match language with
    | kinyarwanda => "The user is providing the prompt in Kinyarwanda; interpret it accordingly."
    | english => ""
    end in
  let styleInstruction :=
    if negb (String.eqb style "none")
    then "Style: " ++ replace_first hyphen " " style ++ ". Style Intensity: " ++ intensityMap styleIntensity
    else "" in
  let negativeInstruction :=
    if truthy negativePrompt then "Avoid the following: " ++ negativePrompt ++ "." else "" in
  let mainPrompt :=
    if Nat.ltb 1 (List.length prompts) then
      let blendedPrompts := join " and " (map (fun p => dq ++ p ++ dq) prompts) in
      "expertly blend the following distinct concepts into a single, cohesive, and beautiful image: " ++ blendedPrompts ++ "."
    else "create the following image: " ++ first_prompt prompts ++ "." in
  let finalPrompt :=
    personaInstructions persona ++ " " ++ mainPrompt ++ " " ++ languageInstruction ++ " "
      ++ styleInstruction ++ " " ++ negativeInstruction in
  trim finalPrompt.

Definition durationMap (d : VideoDuration) : string :=
  match d with
  | short => "a short clip, approximately 5-8 seconds long."
  | medium => "a medium-length clip, approximately 15 seconds long."
  | long => "a long clip, aiming for 30 seconds."
  | one_minute => "a one-minute long cinematic scene."
  | three_minute => "a detailed, three-minute long epic scene. This is a goal, the final length may vary."
  end.

Definition motionIntensityMap (i : Intensity) : string :=
  match i with
  | subtle => "subtle and slow"
  | balanced => "clear and moderately paced"
  | strong => "dynamic and fast-paced"
  end.

(** The line break and indentation between the lines of the template. *)
Definition nl_indent : string := String (ascii_of_nat 10) "    ".

Definition constructVideoPrompt (prompt : string) (style : VideoStyle)
    (negativePrompt : string) (duration : VideoDuration)
    (cameraMovement : CameraMovement) (quality : VideoQuality)
    (language : Language) (framing : VideoFraming) (persona : AIPersona)
    (loop : bool) (aspectRatio : AspectRatio) (fps : VideoFPS)
    (motionIntensity : Intensity) (audioMood : AudioMood) : string :=
  let languageInstruction :=
    match language with
    | kinyarwanda => "The user is providing the prompt in Kinyarwanda; interpret it as a creative instruction for the scene."
    | english => ""
    end in
  let styleInstruction :=
    match style with vs_none => "" | _ => "Visual Style: " ++ Lit.VideoStyle style ++ "." end in
  let negativeInstruction :=
    if truthy negativePrompt
    then "Crucially, avoid the following elements: " ++ negativePrompt ++ "." else "" in
  let durationInstruction := "Duration Goal: " ++ durationMap duration ++ "." in
  let cameraInstruction :=
    match cameraMovement with
    | cm_none => ""
    | _ => "Camera Movement: A " ++ motionIntensityMap motionIntensity ++ " "
             ++ replace_first hyphen " " (Lit.CameraMovement cameraMovement) ++ "."
    end in
  let framingInstruction :=
    match framing with
    | vf_none => ""
    | _ => "Shot Framing: Use a " ++ replace_first hyphen " " (Lit.VideoFraming framing) ++ "."
    end in
  let qualityInstruction :=
    match quality with
    | high => "Output Quality: Aim for 8K resolution, ultra-high fidelity, with photorealistic rendering and professional color grading."
    | standard => ""
    end in
  let loopInstruction := if loop then "The video must be a perfect, seamless loop." else "" in
  let aspectInstruction :=
    "Aspect Ratio: The final video must be in " ++ Lit.AspectRatio aspectRatio ++ " format." in
  let fpsInstruction :=
    "Frame Rate: The video must be rendered at " ++ Lit.VideoFPS fps ++ " frames per second." in
  let audioInstruction :=
    match audioMood with
    | am_none => ""
    | _ => "The overall mood of the scene should be appropriate for a soundtrack that is "
             ++ replace_first hyphen " " (Lit.AudioMood audioMood) ++ "."
    end in
  let finalPrompt :=
    personaInstructions persona ++ " create a video based on this scene: " ++ dq ++ prompt ++ dq
      ++ ". " ++ nl_indent ++ languageInstruction
      ++ nl_indent ++ styleInstruction ++ " " ++ nl_indent ++ cameraInstruction
      ++ nl_indent ++ framingInstruction ++ nl_indent ++ durationInstruction
      ++ nl_indent ++ qualityInstruction ++ nl_indent ++ aspectInstruction
      ++ nl_indent ++ fpsInstruction ++ nl_indent ++ audioInstruction
      ++ nl_indent ++ negativeInstruction ++ nl_indent ++ loopInstruction in
  trim (collapse_ws finalPrompt).

End Service.

(* ------------------------------------------------------------------ *)
(** ** The image prompt as the specification describes it

    The instruction is the persona text, then a request (to blend the
    prompts, each in double quotes and joined by [" and "], or to create
    the single prompt's image), then three optional instructions, each in
    its own space-separated slot; a slot whose condition fails stays
    empty, and trailing whitespace is dropped. *)
Module ImageSpec.
Import JS.

Definition quoted (p : string) : string := dq ++ p ++ dq.

Definition blend_request (ps : list string) : string :=
  "expertly blend the following distinct concepts into a single, cohesive, and beautiful image: "
    ++ join " and " (map quoted ps) ++ ".".

Definition create_request (p : string) : string :=
  "create the following image: " ++ p ++ ".".

Definition request (ps : list string) : string :=
  match ps with
  | [p] => create_request p
  | _ => blend_request ps
  end.

Definition kinyarwanda_instruction : string :=
  "The user is providing the prompt in Kinyarwanda; interpret it accordingly.".

Definition style_instruction (style : string) (i : Intensity) : string :=
  "Style: " ++ replace_first hyphen " " style ++ ". Style Intensity: " ++ Service.intensityMap i.

Definition avoid_instruction (neg : string) : string :=
  "Avoid the following: " ++ neg ++ ".".

Definition slot (present : bool) (instr : string) : string :=
  if present then instr else "".

Definition is_kinyarwanda (l : Language) : bool :=
  match l with kinyarwanda => true | english => false end.

End ImageSpec.

(* ------------------------------------------------------------------ *)
(** ** Whitespace-separated words

    [split_ws] splits at every whitespace character (as [s.split(/\s/)]),
    [words] keeps the non-empty pieces. *)
Module Words.
Import JS.

Fixpoint split_ws (s : string) : list string :=
  match s with
  | EmptyString => [EmptyString]
  | String c r =>
      if is_ws c then EmptyString :: split_ws r
      else match split_ws r with
           | w :: ws => String c w :: ws
           | [] => [String c EmptyString]
           end
  end.

Definition words (s : string) : list string := filter truthy (split_ws s).

Fixpoint blank (s : string) : bool :=
  match s with EmptyString => true | String c r => is_ws c && blank r end.

Fixpoint no_ws (s : string) : bool :=
  match s with EmptyString => true | String c r => negb (is_ws c) && no_ws r end.

(** Non-empty words without whitespace, joined by single spaces: the
    shape of a string in which every whitespace run is one space and
    nothing is left at either end. *)
Definition single_spaced (s : string) : Prop :=
  exists ws, s = join " " ws /\ Forall (fun w => truthy w = true /\ no_ws w = true) ws.

End Words.

(* ------------------------------------------------------------------ *)
(** ** The video prompt as the specification describes it

    One instruction per component, in the template's order; the
    conditional ones are present exactly under their condition.  The
    result is the components, each with its whitespace normalised, joined
    by single spaces. *)
Module VideoSpec.
Import JS.

Definition normalize (s : string) : string := trim (collapse_ws s).

Definition opt (present : bool) (instr : string) : list string :=
  if present then [instr] else [].

Definition header (persona : AIPersona) (prompt : string) : string :=
  Service.personaInstructions persona ++ " create a video based on this scene: "
    ++ dq ++ prompt ++ dq ++ ".".

Definition language_instruction : string :=
  "The user is providing the prompt in Kinyarwanda; interpret it as a creative instruction for the scene.".
Definition style_instruction (s : VideoStyle) : string :=
  "Visual Style: " ++ Lit.VideoStyle s ++ ".".
Definition camera_instruction (c : CameraMovement) (i : Intensity) : string :=
  "Camera Movement: A " ++ Service.motionIntensityMap i ++ " "
    ++ replace_first hyphen " " (Lit.CameraMovement c) ++ ".".
Definition framing_instruction (f : VideoFraming) : string :=
  "Shot Framing: Use a " ++ replace_first hyphen " " (Lit.VideoFraming f) ++ ".".
Definition duration_instruction (d : VideoDuration) : string :=
  "Duration Goal: " ++ Service.durationMap d ++ ".".
Definition quality_sentence : string :=
  "Output Quality: Aim for 8K resolution, ultra-high fidelity, with photorealistic rendering and professional color grading.".
Definition aspect_instruction (a : AspectRatio) : string :=
  "Aspect Ratio: The final video must be in " ++ Lit.AspectRatio a ++ " format.".
Definition fps_instruction (f : VideoFPS) : string :=
  "Frame Rate: The video must be rendered at " ++ Lit.VideoFPS f ++ " frames per second.".
Definition audio_instruction (m : AudioMood) : string :=
  "The overall mood of the scene should be appropriate for a soundtrack that is "
    ++ replace_first hyphen " " (Lit.AudioMood m) ++ ".".
Definition negative_instruction (neg : string) : string :=
  "Crucially, avoid the following elements: " ++ neg ++ ".".
Definition loop_sentence : string := "The video must be a perfect, seamless loop.".

Definition is_none_style (s : VideoStyle) : bool := match s with vs_none => true | _ => false end.
Definition is_none_camera (c : CameraMovement) : bool := match c with cm_none => true | _ => false end.
Definition is_none_framing (f : VideoFraming) : bool := match f with vf_none => true | _ => false end.
Definition is_none_mood (m : AudioMood) : bool := match m with am_none => true | _ => false end.
Definition is_high (q : VideoQuality) : bool := match q with high => true | standard => false end.

Definition parts (prompt : string) (style : VideoStyle) (negativePrompt : string)
    (duration : VideoDuration) (cameraMovement : CameraMovement) (quality : VideoQuality)
    (language : Language) (framing : VideoFraming) (persona : AIPersona) (loop : bool)
    (aspectRatio : AspectRatio) (fps : VideoFPS) (motionIntensity : Intensity)
    (audioMood : AudioMood) : list string :=
  [header persona prompt]
  ++ opt (ImageSpec.is_kinyarwanda language) language_instruction
  ++ opt (negb (is_none_style style)) (style_instruction style)
  ++ opt (negb (is_none_camera cameraMovement)) (camera_instruction cameraMovement motionIntensity)
  ++ opt (negb (is_none_framing framing)) (framing_instruction framing)
  ++ [duration_instruction duration]
  ++ opt (is_high quality) quality_sentence
  ++ [aspect_instruction aspectRatio]
  ++ [fps_instruction fps]
  ++ opt (negb (is_none_mood audioMood)) (audio_instruction audioMood)
  ++ opt (truthy negativePrompt) (negative_instruction negativePrompt)
  ++ opt loop loop_sentence.

End VideoSpec.

(** [needle] occurs in [s]. *)
Definition substring (needle s : string) : Prop :=
  exists a b, s = a ++ needle ++ b.

(* ------------------------------------------------------------------ *)
(** ** Asynchronous results and the video job

    An awaited promise settles at a time (milliseconds) with a value or
    with a thrown value; [Error] objects carry their message. *)

Inductive Exn := ErrorObj (message : string) | OtherValue.

Inductive Outcome (A : Type) := Resolved (v : A) | Rejected (e : Exn).
Arguments Resolved {A} v.
Arguments Rejected {A} e.

(** [err instanceof Error ? err.message : fallback] *)
Definition errorMessage (fallback : string) (e : Exn) : string :=
  match e with ErrorObj m => m | OtherValue => fallback end.

Module VideoJob.
Import JS.

(** The fields of a long-running operation that the code reads:
    [operation.done] and [operation.response?.generatedVideos?.[0]?.video?.uri]
    ([None] when any link of the optional chain is missing). *)
Record Operation := { done : bool; video_uri : option string }.

Record FetchResponse := { ok : bool; body_blob : string }.

(** What the client observes: the first operation returned by
    [generateVideos] is [responses 0], the k-th poll of
    [getVideosOperation] returns [responses k]. *)
Record JobEnv := {
  responses : nat -> Operation;
  fetch : string -> FetchResponse;
  api_key : string;
  createObjectURL : string -> string
}.

Inductive Event := Sleep (ms : N) | Poll | Fetch (url : string).

(** [while (!operation.done) { await sleep(10000); operation = await poll }],
    run for at most [fuel] iterations; [None] when the operation has not
    finished by then.  Returns the finished operation, its index and the
    events issued. *)
Fixpoint poll_loop (fuel : nat) (resp : nat -> Operation) (i : nat)
  : option (Operation * nat * list Event) :=
  if done (resp i) then Some (resp i, i, [])
  else match fuel with
       | O => None
       | S f =>
           match poll_loop f resp (S i) with
           | Some (op, n, evs) => Some (op, n, Sleep 10000%N :: Poll :: evs)
           | None => None
           end
       end.

(** [if (!downloadLink)]: a missing link or the empty string. *)
Definition downloadLink (op : Operation) : option string :=
  match video_uri op with
  | Some u => if truthy u then Some u else None
  | None => None
  end.

Definition generateVideoInternal (fuel : nat) (env : JobEnv)
  : option (Outcome string * list Event) :=
  match poll_loop fuel (responses env) 0 with
  | None => None
  | Some (op, _, evs) =>
      match downloadLink op with
      | None => Some (Rejected (ErrorObj "Video generation failed or did not return a valid link."), evs)
      | Some link =>
          let url := link ++ "&key=" ++ api_key env in
          let videoResponse := fetch env url in
          if negb (ok videoResponse)
          then Some (Rejected (ErrorObj "Failed to download the generated video."), (evs ++ [Fetch url])%list)
          else Some (Resolved (createObjectURL env (body_blob videoResponse)), (evs ++ [Fetch url])%list)
      end
  end.

(** Specification side: the index of the first finished operation, and
    the polling trace of a fixed ten-second period. *)
Definition first_done (resp : nat -> Operation) (n : nat) : Prop :=
  done (resp n) = true /\ forall k, k < n -> done (resp k) = false.

Fixpoint polls (n : nat) : list Event :=
  match n with O => [] | S k => Sleep 10000%N :: Poll :: polls k end.

End VideoJob.

Module Samples.
Import VideoJob.

(** A job that finishes at the second poll, used by the witnesses. *)
Definition sample_job : VideoJob.JobEnv := {|
  responses := fun k => if Nat.ltb k 2 then {| done := false; video_uri := None |}
                        else {| done := true; video_uri := Some "https://video/1?alt=media" |};
  fetch := fun _ => {| ok := true; body_blob := "blob" |};
  api_key := "KEY";
  createObjectURL := fun b => "blob:" ++ b
|}.

End Samples.

(* ------------------------------------------------------------------ *)
(** ** Records of [types.ts] *)

Inductive ImageStyle := is_none | photorealistic | fantasy | anime | render_3d | pixel_art.
Inductive SoundFXStyle := fx_none | realistic | cartoon | fx_cinematic.
Inductive SubscriptionTier := free | silver | golden | diamond.
Inductive MediaType := IMAGE | VIDEO.
Inductive ToastType := ToastSuccess | ToastError | ToastInfo.

Module Types.

(** [GenerationSettings]: [prompts] is required, every other field is
    optional; [style] holds the literal of an [ImageStyle] or a
    [VideoStyle], [seed] a non-negative number. *)
Record GenerationSettings := {
  prompts : list string;
  negativePrompt : option string;
  style : option string;
  language : option Language;
  persona : option AIPersona;
  aspectRatio : option AspectRatio;
  seed : option N;
  duration : option VideoDuration;
  cameraMovement : option CameraMovement;
  quality : option VideoQuality;
  framing : option VideoFraming;
  loop : option bool;
  fps : option VideoFPS;
  styleIntensity : option Intensity;
  motionIntensity : option Intensity;
  fxStyle : option SoundFXStyle;
  audioMood : option AudioMood;
  batchSize : option nat;
  negativeIntensity : option Intensity
}.

Record LibraryItem := {
  id : string;
  type : MediaType;
  src : string;
  settings : GenerationSettings;
  createdAt : string;
  variations : option (list string);
  audioSrc : option string
}.

(** The argument of [onSaveToLibrary]:
    [{ type, src, settings, audioSrc?, variations? }]. *)
Record SaveItem := {
  item_type : MediaType;
  item_src : string;
  item_settings : GenerationSettings;
  item_audioSrc : option string;
  item_variations : option (list string)
}.

End Types.

(* ------------------------------------------------------------------ *)
(** ** Dates: [Date.now()] and [toISOString] *)

Module Date.

(** Decimal digits of a number, as template literals print it. *)
Definition N_to_string (n : N) : string := NilEmpty.string_of_uint (N.to_uint n).

Fixpoint zeros (k : nat) : string :=
  match k with O => "" | S k' => String "0" (zeros k') end.

(** [String(n).padStart(w, '0')] *)
Definition pad (w : nat) (n : N) : string :=
  let s := N_to_string n in zeros (w - String.length s) ++ s.

Local Open Scope N_scope.

(** [new Date(ms).toISOString()] for a time at or after the epoch:
    the proleptic Gregorian calendar date of day [ms / 86400000]
    (days-to-civil conversion) and the time of day, in UTC. *)
Definition toISOString (ms : N) : string :=
  let days := ms / 86400000 in
  let msOfDay := ms mod 86400000 in
  let z := days + 719468 in
  let era := z / 146097 in
  let doe := z - era * 146097 in
  let yoe := (doe - doe / 1460 + doe / 36524 - doe / 146096) / 365 in
  let y := yoe + era * 400 in
  let doy := doe - (365 * yoe + yoe / 4 - yoe / 100) in
  let mp := (5 * doy + 2) / 153 in
  let d := doy - (153 * mp + 2) / 5 + 1 in
  let m := if (mp <? 10)%N then mp + 3 else mp - 9 in
  let year := if (m <=? 2)%N then y + 1 else y in
  let yearStr := if (year <=? 9999)%N then pad 4 year else "+" ++ pad 6 year in
  yearStr ++ "-" ++ pad 2 m ++ "-" ++ pad 2 d ++ "T"
    ++ pad 2 (msOfDay / 3600000) ++ ":" ++ pad 2 ((msOfDay / 60000) mod 60) ++ ":"
    ++ pad 2 ((msOfDay / 1000) mod 60) ++ "." ++ pad 3 (msOfDay mod 1000) ++ "Z".
Local Close Scope N_scope.

End Date.

(* ------------------------------------------------------------------ *)
(** ** The library and toasts of [App] *)

Module App.
Import JS Types.

Record Toast := { message : string; toast_type : ToastType }.

(** The part of the state of [App] that the handlers below update. *)
Record AppState := { libraryItems : list LibraryItem; toasts : list Toast }.

Definition initialState : AppState := {| libraryItems := []; toasts := [] |}.

(** [addToast(message, type)]: appends a toast (its random id is not
    modelled). *)
Definition addToast (msg : string) (t : ToastType) (st : AppState) : AppState :=
  {| libraryItems := libraryItems st; toasts := (toasts st ++ [{| message := msg; toast_type := t |}])%list |}.

(** [{ ...item, id: `item-${Date.now()}`, createdAt: new Date().toISOString() }] *)
Definition newItem (now : N) (item : SaveItem) : LibraryItem := {|
  id := "item-" ++ Date.N_to_string now;
  type := item_type item;
  src := item_src item;
  settings := item_settings item;
  createdAt := Date.toISOString now;
  variations := item_variations item;
  audioSrc := item_audioSrc item
|}.

(** [handleSaveToLibrary], called at time [now]:
    [setLibraryItems(prev => [newItem, ...prev]); addToast('Saved to Library!', 'success')]. *)
Definition handleSaveToLibrary (now : N) (item : SaveItem) (st : AppState) : AppState :=
  addToast "Saved to Library!" ToastSuccess
    {| libraryItems := newItem now item :: libraryItems st; toasts := toasts st |}.

(** [Library.handleDelete(itemId)]:
    [setItems(prev => prev.filter(item => item.id !== itemId))], then the
    success toast ([setSelectedItem(null)] is local to the library view). *)
Definition handleDelete (itemId : string) (st : AppState) : AppState :=
  addToast "Item deleted from library." ToastSuccess
    {| libraryItems := filter (fun item => negb (String.eqb (id item) itemId)) (libraryItems st);
       toasts := toasts st |}.

(** [Settings.handleClearLibrary]: [setLibraryItems([])], then the toast. *)
Definition handleClearLibrary (st : AppState) : AppState :=
  addToast "Creative Library has been cleared." ToastSuccess
    {| libraryItems := []; toasts := toasts st |}.

Inductive LibraryOp :=
| OpSave (now : N) (item : SaveItem)
| OpDelete (itemId : string)
| OpClear.

Definition applyOp (st : AppState) (op : LibraryOp) : AppState :=
  match op with
  | OpSave now item => handleSaveToLibrary now item st
  | OpDelete itemId => handleDelete itemId st
  | OpClear => handleClearLibrary st
  end.

Definition runOps (ops : list LibraryOp) (st : AppState) : AppState :=
  fold_left applyOp ops st.

(** Specification side: the list without the items of a given id. *)
Fixpoint remove_id (itemId : string) (l : list LibraryItem) : list LibraryItem :=
  match l with
  | [] => []
  | it :: r => if String.eqb (id it) itemId then remove_id itemId r else it :: remove_id itemId r
  end.

End App.

(* ------------------------------------------------------------------ *)
(** ** Subscription tier persistence of [App] *)

Module TierStore.
Import JS.

(** What [JSON.parse] returns, as far as the tier check distinguishes
    it: a string, or any other JSON value. *)
Inductive JSONValue := JString (s : string) | JOther.

Definition tier_lit (t : SubscriptionTier) : string :=
  match t with free => "free" | silver => "silver" | golden => "golden" | diamond => "diamond" end.

(** [['free', 'silver', 'golden', 'diamond'].includes(v)], returning the
    tier that matches. *)
Definition tier_of_json (v : JSONValue) : option SubscriptionTier :=
  match v with
  | JString s =>
      if String.eqb s "free" then Some free
      else if String.eqb s "silver" then Some silver
      else if String.eqb s "golden" then Some golden
      else if String.eqb s "diamond" then Some diamond
      else None
  | JOther => None
  end.

Definition hex_digit (n : nat) : ascii :=
  if Nat.ltb n 10 then ascii_of_nat (48 + n) else ascii_of_nat (87 + n).

(** [JSON.stringify] of a string: double quotes around it, with the
    quote, the backslash and the control characters escaped
    (short forms for backspace, tab, line feed, form feed and carriage
    return, [\\u00XX] for the others). *)
Fixpoint escape (s : string) : string :=
  match s with
  | EmptyString => ""
  | String c r =>
      let n := nat_of_ascii c in
      if Nat.eqb n 34 then String "\" (dq ++ escape r)
      else if Nat.eqb n 92 then String "\" (String "\" (escape r))
      else if Nat.eqb n 8 then String "\" (String "b" (escape r))
      else if Nat.eqb n 9 then String "\" (String "t" (escape r))
      else if Nat.eqb n 10 then String "\" (String "n" (escape r))
      else if Nat.eqb n 12 then String "\" (String "f" (escape r))
      else if Nat.eqb n 13 then String "\" (String "r" (escape r))
      else if Nat.ltb n 32
      then "\u00" ++ String (hex_digit (n / 16)) (String (hex_digit (n mod 16)) (escape r))
      else String c (escape r)
  end.

Definition JSON_stringify_string (s : string) : string := dq ++ escape s ++ dq.

(** [localStorage]: [getItem] returns [None] for a missing key. *)
Definition Storage := string -> option string.

Definition setItem (ls : Storage) (key value : string) : Storage :=
  fun k => if String.eqb k key then Some value else ls k.

Section Load.
(** [JSON.parse]; [None] when it throws. *)
Variable JSON_parse : string -> option JSONValue.

Record LoadState := {
  loadedLibrary : option JSONValue;   (* argument of [setLibraryItems], if called *)
  subscriptionTier : SubscriptionTier
}.

(** The startup effect: one [try] block whose [catch] only logs; a throw
    keeps the updates made before it ([inr]). *)
Definition load_library (ls : Storage) (st : LoadState) : LoadState + LoadState :=
  match ls "creative-suite-library" with
  | Some v =>
      if truthy v then
        match JSON_parse v with
        | Some j => inl {| loadedLibrary := Some j; subscriptionTier := subscriptionTier st |}
        | None => inr st
        end
      else inl st
  | None => inl st
  end.

Definition load_tier (ls : Storage) (st : LoadState) : LoadState + LoadState :=
  match ls "creative-suite-tier" with
  | Some v =>
      if truthy v then
        match JSON_parse v with
        | Some j =>
            match tier_of_json j with
            | Some t => inl {| loadedLibrary := loadedLibrary st; subscriptionTier := t |}
            | None => inl st
            end
        | None => inr st
        end
      else inl st
  | None => inl st
  end.

Definition startup_load (ls : Storage) (st : LoadState) : LoadState :=
  match load_library ls st with
  | inr st' => st'
  | inl st' => match load_tier ls st' with inl st'' => st'' | inr st'' => st'' end
  end.

(** The stored library, if present and non-empty, is JSON text: it is
    only ever written by [JSON.stringify(libraryItems)]. *)
Definition library_ok (ls : Storage) : Prop :=
  match ls "creative-suite-library" with
  | Some v => truthy v = true -> JSON_parse v <> None
  | None => True
  end.

End Load.

Definition initial : LoadState := {| loadedLibrary := None; subscriptionTier := free |}.

(** The tier save effect:
    [localStorage.setItem('creative-suite-tier', JSON.stringify(subscriptionTier))]. *)
Definition save_tier (ls : Storage) (t : SubscriptionTier) : Storage :=
  setItem ls "creative-suite-tier" (JSON_stringify_string (tier_lit t)).

End TierStore.

(* ------------------------------------------------------------------ *)
(** ** Premium gating of the video generator *)

Module Premium.

(** [tierLevels: { free: 0, silver: 1, golden: 2, diamond: 3 }] *)
Definition tierLevels (t : SubscriptionTier) : nat :=
  match t with free => 0 | silver => 1 | golden => 2 | diamond => 3 end.

Definition handlePremiumFeature {S : Type} (subscriptionTier requiredTier : SubscriptionTier)
    (promptUpgrade action : S -> S) (s : S) : S :=
  if Nat.ltb (tierLevels subscriptionTier) (tierLevels requiredTier)
  then promptUpgrade s else action s.

(** A screen with the upgrade modal of [App] and one gated setting. *)
Record Screen (A : Type) := { showUpgradeModal : bool; setting : A }.
Arguments showUpgradeModal {A} s.
Arguments setting {A} s.

(** [promptUpgrade: () => setShowUpgradeModal(true)] *)
Definition promptUpgrade {A} (s : Screen A) : Screen A :=
  {| showUpgradeModal := true; setting := setting s |}.

(** The gated actions, e.g. [() => setDuration(d.id)]. *)
Definition setSetting {A} (v : A) (s : Screen A) : Screen A :=
  {| showUpgradeModal := showUpgradeModal s; setting := v |}.

(** Specification side: the position of a tier in the ordering
    free < silver < golden < diamond. *)
Fixpoint position (t : SubscriptionTier) (l : list SubscriptionTier) : nat :=
  match l with
  | [] => 0
  | x :: r =>
      match x, t with
      | free, free | silver, silver | golden, golden | diamond, diamond => 0
      | _, _ => S (position t r)
      end
  end.

Definition at_least (current required : SubscriptionTier) : bool :=
  Nat.leb (position required [free; silver; golden; diamond])
          (position current [free; silver; golden; diamond]).

End Premium.

(* ------------------------------------------------------------------ *)
(** ** The prompt history hook *)

Module PromptHistory.
Import JS.

(** [addPromptToHistory(prompt)] with the hook's current [history]:
    returns the history after the call and the value written to
    [localStorage], if any. *)
Definition addPromptToHistory (history : list string) (prompt : string)
  : list string * option (list string) :=
  if negb (truthy (trim prompt)) then (history, None)
  else
    let newHistory := firstn 10 (prompt :: filter (fun p => negb (String.eqb p prompt)) history) in
    (newHistory, Some newHistory).

End PromptHistory.

(* ------------------------------------------------------------------ *)
(** ** The submit handler of the video generator *)

Module VideoGenerator.
Import JS Types.

Inductive VideoToolMode := text_to_video | image_to_video.

Record File := { file_name : string; file_type : string }.
Record ImagePayload := { imageBytes : string; mimeType : string }.

(** The values of the component's state captured by [handleSubmit]
    (its [useCallback] dependencies) and the prompt history of the hook. *)
Record Form := {
  mode : VideoToolMode;
  prompt : string;
  f_negativePrompt : string;
  f_style : VideoStyle;
  f_duration : VideoDuration;
  f_cameraMovement : CameraMovement;
  f_quality : VideoQuality;
  f_language : Language;
  f_framing : VideoFraming;
  f_persona : AIPersona;
  loopVideo : bool;
  f_aspectRatio : AspectRatio;
  f_fps : VideoFPS;
  f_motionIntensity : Intensity;
  f_audioMood : AudioMood;
  imageFile : option File;
  promptHistory : list string
}.

(** The effects of the handler, in the order it performs them: React
    state updates, storage writes, requests, the [await] of
    [Promise.all], and calls of the [setToast] and [onSaveToLibrary]
    props. *)
Inductive Effect :=
| SetIsLoading (b : bool)
| SetError (e : option string)
| SetGeneratedVideo (v : option string)
| SetGeneratedAudio (a : option string)
| SetLoadingMessage (m : string)
| SetLastSettings (s : GenerationSettings)
| SetHistory (h : list string)
| StoreHistory (h : list string)
| ReadFile (f : File)
| RequestVideo (finalPrompt : string) (image : option ImagePayload)
| RequestSound (soundPrompt : string) (fx : AudioMood)
| AwaitAll
| SetToast (msg : string) (t : ToastType)
| SaveToLibrary (item : SaveItem).

(** A state and exception monad over the list of effects. *)
Definition M (A : Type) := list Effect -> list Effect * Outcome A.

Definition ret {A} (a : A) : M A := fun l => (l, Resolved a).

Definition bind {A B} (m : M A) (k : A -> M B) : M B :=
  fun l => match m l with
           | (l', Resolved a) => k a l'
           | (l', Rejected e) => (l', Rejected e)
           end.

Definition emit (e : Effect) : M unit := fun l => ((l ++ [e])%list, Resolved tt).

Definition await {A} (o : Outcome A) : M A := fun l => (l, o).

Notation "'let*' x ':=' m 'in' k" := (bind m (fun x => k))
  (at level 200, x name, m at level 100, k at level 200).
Notation "m ;; k" := (bind m (fun _ => k)) (at level 100, right associativity).

(** [try { body } catch (err) { handler } finally { fin }] *)
Definition try_catch_finally (body : M unit) (handler : Exn -> M unit) (fin : M unit) : M unit :=
  fun l =>
    match body l with
    | (l1, Resolved _) => fin l1
    | (l1, Rejected e) =>
        match handler e l1 with
        | (l2, Resolved _) => fin l2
        | (l2, Rejected e2) =>
            match fin l2 with
            | (l3, Resolved _) => (l3, Rejected e2)
            | r => r
            end
        end
    end.

(** The asynchronous services, seen from the handler: how reading the
    image file ends, and when and how the video request settles.  The
    requests are issued at time [t0]. *)
Record SubmitEnv := {
  fileToBase64 : File -> Outcome ImagePayload;
  videoSettle : N * Outcome string;
  t0 : N
}.

Definition LOADING_MESSAGES_0 : string := "Warming up the digital director...".

Definition audioMoodLabel (m : AudioMood) : string :=
  match m with
  | am_none => "None" | epic => "Epic Orchestral" | ambient => "Ambient Sci-Fi"
  | lofi => "Lo-Fi Beats" | cinematic_tension => "Cinematic Tension"
  end.

Definition placeholderAudio : string :=
  "data:audio/wav;base64,UklGRiQAAABXQVZFZm10IBAAAAABAAEARKwAAIhYAQACABAAZGF0YQAAAAA=".

(** [generateSoundEffect] is a mock: it resolves with the placeholder
    3000 ms after the call and never rejects.  [Promise.resolve(null)]
    is already resolved when it is awaited. *)
Definition audioSettle (t0 : N) (audioMood : AudioMood) : N * Outcome (option string) :=
  match audioMood with
  | am_none => (t0, Resolved None)
  | _ => ((t0 + 3000)%N, Resolved (Some placeholderAudio))
  end.

(** [Promise.all([a, b])]: resolves when both have resolved; rejects
    with the rejection that happens first (the first listed on a tie). *)
Definition promise_all2 {A B} (a : N * Outcome A) (b : N * Outcome B) : N * Outcome (A * B) :=
  match a, b with
  | (ta, Resolved x), (tb, Resolved y) => (N.max ta tb, Resolved (x, y))
  | (ta, Rejected ea), (tb, Rejected eb) =>
      if (tb <? ta)%N then (tb, Rejected eb) else (ta, Rejected ea)
  | (ta, Rejected ea), _ => (ta, Rejected ea)
  | _, (tb, Rejected eb) => (tb, Rejected eb)
  end.

Definition currentSettings (f : Form) : GenerationSettings := {|
  prompts := [prompt f];
  negativePrompt := Some (f_negativePrompt f);
  style := Some (Lit.VideoStyle (f_style f));
  language := Some (f_language f);
  persona := Some (f_persona f);
  aspectRatio := Some (f_aspectRatio f);
  seed := None;
  duration := Some (f_duration f);
  cameraMovement := Some (f_cameraMovement f);
  quality := Some (f_quality f);
  framing := Some (f_framing f);
  loop := Some (loopVideo f);
  fps := Some (f_fps f);
  styleIntensity := None;
  motionIntensity := Some (f_motionIntensity f);
  fxStyle := None;
  audioMood := Some (f_audioMood f);
  batchSize := None;
  negativeIntensity := None
|}.

(** [addPromptToHistory(prompt)] of the hook, as effects. *)
Definition addPromptToHistoryM (history : list string) (p : string) : M unit :=
  match PromptHistory.addPromptToHistory history p with
  | (h, Some stored) => emit (SetHistory h) ;; emit (StoreHistory stored)
  | (_, None) => ret tt
  end.

(** [generateVideo(prompt, imagePayload, ...)] builds the final prompt
    with [constructVideoPrompt] and starts the job. *)
Definition videoFinalPrompt (f : Form) : string :=
  Service.constructVideoPrompt (prompt f) (f_style f) (f_negativePrompt f) (f_duration f)
    (f_cameraMovement f) (f_quality f) (f_language f) (f_framing f) (f_persona f)
    (loopVideo f) (f_aspectRatio f) (f_fps f) (f_motionIntensity f) (f_audioMood f).

Definition soundPrompt (m : AudioMood) : string :=
  "A soundtrack for a video with an " ++ dq ++ audioMoodLabel m ++ dq ++ " mood".

Definition isImageMode (f : Form) : bool :=
  match mode f with image_to_video => true | text_to_video => false end.

Definition handleSubmit (env : SubmitEnv) (f : Form) : M unit :=
  if negb (truthy (prompt f)) then emit (SetError (Some "A prompt is required to generate a video."))
  else if isImageMode f && negb (match imageFile f with Some _ => true | None => false end)
  then emit (SetError (Some "An image is required for image-to-video generation."))
  else
    emit (SetIsLoading true) ;; emit (SetError None) ;; emit (SetGeneratedVideo None) ;;
    emit (SetGeneratedAudio None) ;; emit (SetLoadingMessage LOADING_MESSAGES_0) ;;
    emit (SetLastSettings (currentSettings f)) ;;
    addPromptToHistoryM (promptHistory f) (prompt f) ;;
    try_catch_finally
      (let* imagePayload :=
         match mode f, imageFile f with
         | image_to_video, Some file =>
             emit (ReadFile file) ;; let* p := await (fileToBase64 env file) in ret (Some p)
         | _, _ => ret None
         end in
       emit (RequestVideo (videoFinalPrompt f) imagePayload) ;;
       (match f_audioMood f with
        | am_none => ret tt
        | m => emit (RequestSound (soundPrompt m) m)
        end) ;;
       emit AwaitAll ;;
       let* results := await (snd (promise_all2 (videoSettle env) (audioSettle (t0 env) (f_audioMood f)))) in
       let (videoResult, audioResult) := results in
       emit (SetGeneratedVideo (Some videoResult)) ;;
       (match audioResult with
        | Some a => if truthy a then emit (SetGeneratedAudio (Some a)) else ret tt
        | None => ret tt
        end) ;;
       emit (SaveToLibrary {| item_type := VIDEO; item_src := videoResult;
                              item_settings := currentSettings f;
                              item_audioSrc := match audioResult with
                                               | Some a => if truthy a then Some a else None
                                               | None => None
                                               end;
                              item_variations := None |}))
      (fun err =>
         let errorMessage := errorMessage "An unknown error occurred." err in
         emit (SetError (Some errorMessage)) ;; emit (SetToast errorMessage ToastError))
      (emit (SetIsLoading false)).

(** Running the handler from an empty effect list. *)
Definition run (env : SubmitEnv) (f : Form) : list Effect :=
  fst (handleSubmit env f []).

(** The component state the effects produce. *)
Record VGState := {
  isLoading : bool;
  error : option string;
  generatedVideo : option string;
  generatedAudio : option string
}.

Definition applyEffect (s : VGState) (e : Effect) : VGState :=
  match e with
  | SetIsLoading b => {| isLoading := b; error := error s; generatedVideo := generatedVideo s; generatedAudio := generatedAudio s |}
  | SetError x => {| isLoading := isLoading s; error := x; generatedVideo := generatedVideo s; generatedAudio := generatedAudio s |}
  | SetGeneratedVideo v => {| isLoading := isLoading s; error := error s; generatedVideo := v; generatedAudio := generatedAudio s |}
  | SetGeneratedAudio a => {| isLoading := isLoading s; error := error s; generatedVideo := generatedVideo s; generatedAudio := a |}
  | _ => s
  end.

Definition finalState (s : VGState) (l : list Effect) : VGState := fold_left applyEffect l s.

(** The calls of [setToast] and [onSaveToLibrary] reach [App] at time
    [now]. *)
Definition appEffect (now : N) (st : App.AppState) (e : Effect) : App.AppState :=
  match e with
  | SetToast msg t => App.addToast msg t st
  | SaveToLibrary item => App.handleSaveToLibrary now item st
  | _ => st
  end.

Definition appAfter (now : N) (st : App.AppState) (l : list Effect) : App.AppState :=
  fold_left (appEffect now) l st.

Definition isRequest (e : Effect) : bool :=
  match e with RequestVideo _ _ | RequestSound _ _ => true | _ => false end.

Definition isRequestOrAwait (e : Effect) : bool :=
  match e with RequestVideo _ _ | RequestSound _ _ | AwaitAll => true | _ => false end.

Definition isToast (e : Effect) : bool :=
  match e with SetToast _ _ => true | _ => false end.

Definition isSave (e : Effect) : bool :=
  match e with SaveToLibrary _ => true | _ => false end.

(** Specification side: the first rejection among settled requests,
    by settlement time (the first listed on a tie). *)
Fixpoint first_rejection (l : list (N * option Exn)) : option (N * Exn) :=
  match l with
  | [] => None
  | (_, None) :: r => first_rejection r
  | (t, Some e) :: r =>
      match first_rejection r with
      | Some (t', e') => if (t' <? t)%N then Some (t', e') else Some (t, e)
      | None => Some (t, e)
      end
  end.

Definition rejection {A} (o : Outcome A) : option Exn :=
  match o with Resolved _ => None | Rejected e => Some e end.

Definition soundRequests (f : Form) : list Effect :=
  match f_audioMood f with
  | am_none => []
  | m => [RequestSound (soundPrompt m) m]
  end.

(** The image payload the video request carries. *)
Definition payload (env : SubmitEnv) (f : Form) : option ImagePayload :=
  match mode f, imageFile f with
  | image_to_video, Some file =>
      match fileToBase64 env file with Resolved p => Some p | Rejected _ => None end
  | _, _ => None
  end.

(** The form passes validation and the image, if one is read, is read
    without error. *)
Definition submits (env : SubmitEnv) (f : Form) : Prop :=
  truthy (prompt f) = true /\
  match mode f with
  | text_to_video => True
  | image_to_video =>
      exists file p, imageFile f = Some file /\ fileToBase64 env file = Resolved p
  end.

End VideoGenerator.


(* ------------------------------------------------------------------ *)
(** ** Sample inputs for the handlers *)

Module HandlerSamples.
Import JS Types.

(** A [JSON.parse] that accepts JSON string literals (with the escapes
    of [JSON.stringify]'s short forms, quote, backslash and slash) and
    throws on any other text. *)
Definition unescape (c : ascii) : option ascii :=
  match nat_of_ascii c with
  | 34 => Some c | 92 => Some c | 47 => Some c
  | 98 => Some (ascii_of_nat 8) | 116 => Some (ascii_of_nat 9)
  | 110 => Some (ascii_of_nat 10) | 102 => Some (ascii_of_nat 12)
  | 114 => Some (ascii_of_nat 13)
  | _ => None
  end.

Fixpoint string_body (s : string) : option string :=
  match s with
  | EmptyString => None
  | String c r =>
      if Nat.eqb (nat_of_ascii c) 34 then
        match r with EmptyString => Some "" | _ => None end
      else if Nat.eqb (nat_of_ascii c) 92 then
        match r with
        | String e r' =>
            match unescape e, string_body r' with
            | Some d, Some b => Some (String d b)
            | _, _ => None
            end
        | EmptyString => None
        end
      else if Nat.ltb (nat_of_ascii c) 32 then None
      else option_map (String c) (string_body r)
  end.

Definition parse_string_literal (s : string) : option TierStore.JSONValue :=
  match s with
  | String c r =>
      if Nat.eqb (nat_of_ascii c) 34 then option_map TierStore.JString (string_body r) else None
  | EmptyString => None
  end.

Definition empty_storage : TierStore.Storage := fun _ => None.

Definition sample_settings : GenerationSettings := {|
  prompts := ["a lighthouse at dusk"]; negativePrompt := None; style := Some "photorealistic";
  language := Some english; persona := Some photographer; aspectRatio := Some ar_16_9;
  seed := None; duration := None; cameraMovement := None; quality := None; framing := None;
  loop := None; fps := None; styleIntensity := Some balanced; motionIntensity := None;
  fxStyle := None; audioMood := None; batchSize := Some 1; negativeIntensity := None
|}.

Definition sample_item : SaveItem := {|
  item_type := IMAGE; item_src := "data:image/png;base64,AAAA"; item_settings := sample_settings;
  item_audioSrc := None; item_variations := None
|}.

Definition sample_ops : list App.LibraryOp :=
  [App.OpSave 1700000000123 sample_item; App.OpSave 1700000005000 sample_item;
   App.OpDelete "item-1700000000123"; App.OpSave 1700000009000 sample_item].

Definition sample_form : VideoGenerator.Form := {|
  VideoGenerator.mode := VideoGenerator.text_to_video;
  VideoGenerator.prompt := "a red fox in the snow";
  VideoGenerator.f_negativePrompt := "";
  VideoGenerator.f_style := vs_cinematic;
  VideoGenerator.f_duration := short;
  VideoGenerator.f_cameraMovement := pan;
  VideoGenerator.f_quality := standard;
  VideoGenerator.f_language := english;
  VideoGenerator.f_framing := vf_none;
  VideoGenerator.f_persona := cinematographer;
  VideoGenerator.loopVideo := false;
  VideoGenerator.f_aspectRatio := ar_16_9;
  VideoGenerator.f_fps := fps24;
  VideoGenerator.f_motionIntensity := balanced;
  VideoGenerator.f_audioMood := epic;
  VideoGenerator.imageFile := None;
  VideoGenerator.promptHistory := ["a city at night"]
|}.

(** The video job is rejected after a minute with an [Error]. *)
Definition failing_env : VideoGenerator.SubmitEnv := {|
  VideoGenerator.fileToBase64 := fun _ => Resolved {| VideoGenerator.imageBytes := "AAAA"; VideoGenerator.mimeType := "image/png" |};
  VideoGenerator.videoSettle := (60000%N, Rejected (ErrorObj "Quota exceeded."));
  VideoGenerator.t0 := 0%N
|}.

Definition initial_vg : VideoGenerator.VGState := {|
  VideoGenerator.isLoading := false; VideoGenerator.error := None;
  VideoGenerator.generatedVideo := None; VideoGenerator.generatedAudio := None
|}.

End HandlerSamples.

(* ------------------------------------------------------------------ *)
(** ** The rest of the video generator: enhancement, the submit button,
    the image picker and the loading messages *)

Module VideoGeneratorUI.
Import JS Types VideoGenerator.

Definition isHistory (e : Effect) : bool :=
  match e with SetHistory _ | StoreHistory _ => true | _ => false end.

(** The item [handleSubmit] passes to [onSaveToLibrary] when the video
    resolves with [v] (the soundtrack mock resolves with the placeholder). *)
Definition savedItem (f : Form) (v : string) : SaveItem := {|
  item_type := VIDEO; item_src := v; item_settings := currentSettings f;
  item_audioSrc := match f_audioMood f with am_none => None | _ => Some placeholderAudio end;
  item_variations := None |}.

(** [const isSubmitDisabled = isLoading || !prompt || (mode === 'image-to-video' && !imageFile);] *)
Definition isSubmitDisabled (isLoading : bool) (f : Form) : bool :=
  isLoading || negb (truthy (prompt f))
  || (isImageMode f && negb (match imageFile f with Some _ => true | None => false end)).

(** [const LOADING_MESSAGES = [...]] *)
Definition LOADING_MESSAGES : list string :=
  [ "Warming up the digital director..."; "Assembling pixels into scenes...";
    "Rendering cinematic magic..."; "This can take a few minutes, patience is a virtue...";
    "Applying final visual effects..."; "Almost there, preparing your epic video..." ].

(** [xs.indexOf(x)]: the first index holding [x], or [-1]. *)
Fixpoint index_of (xs : list string) (x : string) : option nat :=
  match xs with
  | [] => None
  | y :: r => if String.eqb y x then Some 0 else option_map S (index_of r x)
  end.

Definition indexOf (xs : list string) (x : string) : Z :=
  match index_of xs x with Some n => Z.of_nat n | None => (-1)%Z end.

(** The interval callback:
    [setLoadingMessage(prev => MSGS[(MSGS.indexOf(prev) + 1) % MSGS.length])].
    The index is in range for a non-empty array, so the default of [nth]
    is never read. *)
Definition nextLoadingMessage (msgs : list string) (prev : string) : string :=
  let currentIndex := indexOf msgs prev in
  nth (Z.to_nat ((currentIndex + 1) mod Z.of_nat (List.length msgs))) msgs "".

(** [handleEnhance]'s effects: those of the generator's state and props,
    [setIsEnhancing], and the [promptUpgrade] prop. *)
Inductive EnhanceEffect :=
| EE (e : Effect)
| SetIsEnhancing (b : bool)
| PromptUpgrade.

Definition enhancementInstruction : string :=
  "Re-generate the following scene with enhanced cinematic quality. Focus on stable camera work, hyper-realistic details, professional lighting, and dramatic color grading.".

(** [enhanceVideo(originalPrompt, settings)] on the settings [handleSubmit]
    stored ([setLastSettings(currentSettings)]), which carry the form's
    values; the job is started with the final prompt and no image. *)
Definition enhanceVideoPrompt (originalPrompt : string) (settings : Form) : string :=
  let enhancedPrompt := enhancementInstruction ++ " Scene: " ++ dq ++ originalPrompt ++ dq in
  Service.constructVideoPrompt enhancedPrompt (f_style settings) (f_negativePrompt settings)
    (f_duration settings) (f_cameraMovement settings) high (f_language settings)
    (f_framing settings) (f_persona settings) (loopVideo settings) (f_aspectRatio settings)
    (f_fps settings) strong (f_audioMood settings).

(** [{ ...settings, prompts }] *)
Definition withPrompts (s : GenerationSettings) (ps : list string) : GenerationSettings := {|
  prompts := ps; negativePrompt := negativePrompt s; style := style s; language := language s;
  persona := persona s; aspectRatio := aspectRatio s; seed := seed s; duration := duration s;
  cameraMovement := cameraMovement s; quality := quality s; framing := framing s; loop := loop s;
  fps := fps s; styleIntensity := styleIntensity s; motionIntensity := motionIntensity s;
  fxStyle := fxStyle s; audioMood := audioMood s; batchSize := batchSize s;
  negativeIntensity := negativeIntensity s |}.

(** [handleEnhance], with [lastSettings] the form whose settings
    [handleSubmit] stored (if any) and [enhanced] how the
    [enhanceVideo] request settles.  [handlePremiumFeature('diamond', ...)]
    either calls [promptUpgrade] or runs the action. *)
Definition handleEnhance (subscriptionTier : SubscriptionTier) (enhanced : Outcome string)
    (lastSettings : option Form) : list EnhanceEffect :=
  match lastSettings with
  | None => []
  | Some ls =>
      let p0 := Service.first_prompt (prompts (currentSettings ls)) in
      Premium.handlePremiumFeature subscriptionTier diamond
        (fun l => (l ++ [PromptUpgrade])%list)
        (fun l =>
           (l ++ [SetIsEnhancing true; EE (SetError None); EE (SetGeneratedVideo None);
                  EE (SetIsLoading true); EE (RequestVideo (enhanceVideoPrompt p0 ls) None)]
              ++ match enhanced with
                 | Resolved result =>
                     [EE (SetGeneratedVideo (Some result));
                      EE (SaveToLibrary {| item_type := VIDEO; item_src := result;
                                            item_settings := withPrompts (currentSettings ls) [(p0 ++ " (Enhanced)")%string];
                                            item_audioSrc := None; item_variations := None |});
                      EE (SetToast "Video enhanced successfully!" ToastSuccess)]
                 | Rejected err =>
                     let errorMessage := errorMessage "Enhance failed." err in
                     [EE (SetError (Some errorMessage)); EE (SetToast errorMessage ToastError)]
                 end
              ++ [SetIsEnhancing false; EE (SetIsLoading false)])%list)
        []
  end.

Definition enhanceState (s : VGState) (l : list EnhanceEffect) : VGState :=
  fold_left (fun s e => match e with EE e' => applyEffect s e' | _ => s end) l s.

Definition enhanceEffects (l : list EnhanceEffect) : list Effect :=
  flat_map (fun e => match e with EE e' => [e'] | _ => [] end) l.

(** The image picker: [imageFile], [imagePreview], [error] and the toasts
    sent through [setToast]. *)
Record Picker := {
  p_imageFile : option File;
  p_imagePreview : option string;
  p_error : option string;
  p_toasts : list (string * ToastType)
}.

Section Picker.
(** [URL.createObjectURL]: a blob URL for the file. *)
Variable createObjectURL : File -> string.

(** [handleFileSelect(file)]: [file.type.startsWith('image/')]. *)
Definition handleFileSelect (file : File) (s : Picker) : Picker :=
  if String.prefix "image/" (file_type file) then
    {| p_imageFile := Some file; p_imagePreview := Some (createObjectURL file);
       p_error := p_error s; p_toasts := (p_toasts s ++ [("Image loaded successfully.", ToastSuccess)])%list |}
  else
    {| p_imageFile := p_imageFile s; p_imagePreview := p_imagePreview s;
       p_error := Some "Please select a valid image file.";
       p_toasts := (p_toasts s ++ [("Invalid file type.", ToastError)])%list |}.

(** [clearImage]: [setImageFile(null); setImagePreview(null)] and the
    input's value reset. *)
Definition clearImage (s : Picker) : Picker :=
  {| p_imageFile := None; p_imagePreview := None; p_error := p_error s; p_toasts := p_toasts s |}.

(** [handleFileChange] and [onDrop] take the first file of the list, if
    any, and pass it to [handleFileSelect]. *)
Inductive PickerOp := OpFileChange (files : list File) | OpDrop (files : list File) | OpClearImage.

Definition applyPickerOp (s : Picker) (op : PickerOp) : Picker :=
  match op with
  | OpFileChange files | OpDrop files =>
      match files with file :: _ => handleFileSelect file s | [] => s end
  | OpClearImage => clearImage s
  end.

Definition runPicker (ops : list PickerOp) (s : Picker) : Picker := fold_left applyPickerOp ops s.

End Picker.

(** The picker's state as the component creates it. *)
Definition initialPicker : Picker :=
  {| p_imageFile := None; p_imagePreview := None; p_error := None; p_toasts := [] |}.

Definition comma : ascii := ","%char.

(** [result.split(',')]: the pieces between the commas. *)
Fixpoint split_on (c : ascii) (s : string) : list string :=
  match s with
  | EmptyString => [""]
  | String d r =>
      let pieces := split_on c r in
      if Ascii.eqb d c then "" :: pieces
      else match pieces with
           | p :: ps => String d p :: ps
           | [] => [String d ""]
           end
  end.

(** [reader.onload] of [fileToBase64]: [result.split(',')[1]], [None]
    standing for [undefined], and the file's type. *)
Definition base64Data (result : string) : option string := nth_error (split_on comma result) 1.

Definition onload (file : File) (result : string) : option string * string :=
  (base64Data result, file_type file).

End VideoGeneratorUI.

(* ------------------------------------------------------------------ *)
(** ** Subscribing, and the upgrade modal of [App] *)

Module AppShell.
Import JS.

Inductive GenerationMode := GM_IMAGE | GM_VIDEO | GM_AUDIO | GM_LIBRARY | GM_PROFILE | GM_SETTINGS | GM_PREMIUM.

(** The state of [App] these handlers touch, with [localStorage]. *)
Record Shell := {
  activeMode : GenerationMode;
  subscriptionTier : SubscriptionTier;
  showUpgradeModal : bool;
  app : App.AppState;
  storage : TierStore.Storage
}.

(** [c.toUpperCase()] on the ASCII letters, which is all a tier name holds. *)
Definition toUpperCase (c : ascii) : ascii :=
  let n := nat_of_ascii c in
  if Nat.leb 97 n && Nat.leb n 122 then ascii_of_nat (n - 32) else c.

(** [s.charAt(0).toUpperCase() + s.slice(1)] *)
Definition capitalize (s : string) : string :=
  match s with EmptyString => EmptyString | String c r => String (toUpperCase c) r end.

(** [handleSetSubscriptionTier(tier)], followed by the tier save effect
    that the state change triggers. *)
Definition handleSetSubscriptionTier (tier : SubscriptionTier) (sh : Shell) : Shell := {|
  activeMode := GM_PROFILE;
  subscriptionTier := tier;
  showUpgradeModal := showUpgradeModal sh;
  app := App.addToast ("Successfully subscribed to the " ++ capitalize (TierStore.tier_lit tier) ++ " plan!")
           ToastSuccess (app sh);
  storage := TierStore.save_tier (storage sh) tier
|}.

(** [promptUpgrade: () => setShowUpgradeModal(true)] *)
Definition promptUpgrade (sh : Shell) : Shell := {|
  activeMode := activeMode sh; subscriptionTier := subscriptionTier sh; showUpgradeModal := true;
  app := app sh; storage := storage sh |}.

(** The modal's button: [setShowUpgradeModal(false); setActiveMode('PREMIUM')]. *)
Definition viewPremiumPlans (sh : Shell) : Shell := {|
  activeMode := GM_PREMIUM; subscriptionTier := subscriptionTier sh; showUpgradeModal := false;
  app := app sh; storage := storage sh |}.

(** Specification side: the plan names as the toast shows them. *)
Definition planName (t : SubscriptionTier) : string :=
  match t with free => "Free" | silver => "Silver" | golden => "Golden" | diamond => "Diamond" end.

End AppShell.

(* ------------------------------------------------------------------ *)
(** ** The image services *)

Module ImageService.
Import JS.

(** A part of a [generateContent] response: text, or inline data
    (the base64 bytes of an image). *)
Inductive Part := TextPart (text : string) | InlineDataPart (data : string).

(** [for (const part of parts) { if (part.inlineData) return ...; }] *)
Fixpoint firstInlineData (parts : list Part) : option string :=
  match parts with
  | [] => None
  | TextPart _ :: r => firstInlineData r
  | InlineDataPart d :: _ => Some d
  end.

Definition dataURL (b64 : string) : string := "data:image/png;base64," ++ b64.

(** The message V8 gives the [TypeError] of [response.candidates[0].content]
    when the [candidates] array is empty. *)
Definition noCandidateMessage : string := "Cannot read properties of undefined (reading 'content')".

(** How [transformImage] settles, from how the [generateContent] request
    settles: [Some parts] are the parts of the first candidate, [None] a
    response whose [candidates] array is empty. *)
Definition transformImage_result (response : Outcome (option (list Part))) : Outcome string :=
  match response with
  | Rejected e => Rejected e
  | Resolved None => Rejected (ErrorObj noCandidateMessage)
  | Resolved (Some parts) =>
      match firstInlineData parts with
      | Some d => Resolved (dataURL d)
      | None => Rejected (ErrorObj "Image transformation failed or returned no image.")
      end
  end.

(** [transformImage]'s text part. *)
Definition transformPrompt (prompt : string) : string :=
  "As a professional digital artist specializing in photo manipulation and VFX, execute this transformation: " ++ prompt.

(** How [generateImageFromText] settles: [generatedImages], when
    present, as the [imageBytes] of its images. *)
Definition generateImageFromText_result (response : Outcome (option (list string))) : Outcome string :=
  match response with
  | Rejected e => Rejected e
  | Resolved (Some (b :: _)) => Resolved (dataURL b)
  | Resolved _ => Rejected (ErrorObj "Image generation failed or returned no images.")
  end.

Definition variationPrompt (prompt : string) : string :=
  "Generate four creative variations based on the following concept: " ++ dq ++ prompt ++ dq
    ++ ". Maintain the core subject and composition of the provided image, but explore different lighting, textures, backgrounds, and artistic interpretations. Each variation should be unique and distinct.".

(** [Promise.all] over promises settled at the given times: resolves
    when the last resolves, with the values in order, or rejects with the
    rejection that happens first (the first listed on a tie). *)
Fixpoint promise_all {A} (ps : list (N * Outcome A)) : N * Outcome (list A) :=
  match ps with
  | [] => (0%N, Resolved [])
  | p :: r =>
      match VideoGenerator.promise_all2 p (promise_all r) with
      | (t, Resolved (x, xs)) => (t, Resolved (x :: xs))
      | (t, Rejected e) => (t, Rejected e)
      end
  end.

(** [generateImageVariations(prompt, originalImage)]: the four
    [transformImage] requests (text, image) it issues and how the
    [Promise.all] of them settles; [settle i] is when and how the [i]-th
    [generateContent] request settles. *)
Definition generateImageVariations (prompt : string) (originalImage : string * string)
    (settle : nat -> N * Outcome (option (list Part)))
  : list (string * (string * string)) * (N * Outcome (list string)) :=
  let promises := map (fun i => (fst (settle i), transformImage_result (snd (settle i)))) (seq 0 4) in
  (map (fun _ => (transformPrompt (variationPrompt prompt), originalImage)) (seq 0 4),
   promise_all promises).

End ImageService.

(* ------------------------------------------------------------------ *)
(** ** [ImageTools.handleSubmit] *)

Module ImageTools.
Import JS Types ImageService.

Inductive ImageToolMode := text_to_image | image_transform.

Definition ImageStyle_lit (s : ImageStyle) : string :=
  match s with
  | is_none => "none" | photorealistic => "photorealistic" | fantasy => "fantasy"
  | anime => "anime" | render_3d => "3d-render" | pixel_art => "pixel-art"
  end.

Definition Intensity_lit (i : Intensity) : string :=
  match i with subtle => "subtle" | balanced => "balanced" | strong => "strong" end.

Definition IMAGE_LOADING_MESSAGES : list string :=
  [ "Contacting the digital muse..."; "Mixing colors on the virtual palette...";
    "Sketching the initial concept..."; "Rendering pixels with precision...";
    "Adding artistic finishing touches..."; "Your masterpiece is almost ready..." ].

(** The component state [handleSubmit] reads. *)
Record ImageForm := {
  i_mode : ImageToolMode;
  i_prompts : list string;
  i_negativePrompt : string;
  i_style : ImageStyle;
  i_language : Language;
  i_persona : AIPersona;
  i_aspectRatio : AspectRatio;
  i_seed : string;
  i_styleIntensity : Intensity;
  i_negativeIntensity : Intensity;
  i_batchSize : nat;
  i_imageFile : option VideoGenerator.File;
  i_promptHistory : list string
}.

(** A value the code passes where an array is declared: an array, or (as
    the result of [generateImageFromText]) a string. *)
Inductive ArrayLike := Arr (xs : list string) | Str (s : string).

(** What the [seed] parameter of [generateImageFromText] receives. *)
Inductive SeedArg := SeedUndefined | SeedNumber (n : N) | SeedString (s : string).

Inductive IEffect :=
| I_SetIsLoading (b : bool)
| I_SetError (e : option string)
| I_SetGeneratedImages (v : ArrayLike)
| I_SetSelectedImage (v : option string)
| I_SetVariations (xs : list string)
| I_SetLoadingMessage (m : string)
| I_SetLastSettings (s : GenerationSettings)
| I_SetHistory (h : list string)
| I_StoreHistory (h : list string)
| I_ReadFile (f : VideoGenerator.File)
| I_RequestImages (prompt : string) (numberOfImages : nat) (aspectRatio : AspectRatio) (seed : SeedArg)
| I_RequestTransform (text : string) (image : string * string)
| I_SetToast (msg : string) (t : ToastType)
| I_SaveImage (src : option string) (settings : GenerationSettings) (variations : option ArrayLike).

(** The services, seen from the handler: how reading the file ends (with
    [{ data, mimeType }]), and how the [generateImages] and
    [generateContent] requests settle. *)
Record ImageEnv := {
  i_fileToBase64 : VideoGenerator.File -> Outcome (string * string);
  imagesResponse : Outcome (option (list string));
  transformResponse : Outcome (option (list Part))
}.

(** [s[0]] of a string: its first character, [None] ([undefined]) for
    the empty string. *)
Definition charAt0 (s : string) : option string :=
  match s with EmptyString => None | String c _ => Some (String c EmptyString) end.

(** [s.slice(1)] of a string. *)
Definition slice1 (s : string) : string :=
  match s with EmptyString => EmptyString | String _ r => r end.

Definition isTransform (f : ImageForm) : bool :=
  match i_mode f with image_transform => true | text_to_image => false end.

Definition validPrompts (f : ImageForm) : list string :=
  filter (fun p => negb (String.eqb (trim p) "")) (i_prompts f).

Section Submit.
(** [parseInt(seed, 10)] of a non-empty seed field ([None] for [NaN]). *)
Variable parseInt10 : string -> option N.

(** [currentSettings]; [seed ? parseInt(seed, 10) : undefined]. *)
Definition currentSettings (f : ImageForm) : GenerationSettings := {|
  prompts := validPrompts f;
  negativePrompt := Some (i_negativePrompt f);
  style := Some (ImageStyle_lit (i_style f));
  language := Some (i_language f);
  persona := Some (i_persona f);
  aspectRatio := Some (i_aspectRatio f);
  seed := if truthy (i_seed f) then parseInt10 (i_seed f) else None;
  duration := None; cameraMovement := None; quality := None; framing := None; loop := None;
  fps := None;
  styleIntensity := Some (i_styleIntensity f);
  motionIntensity := None; fxStyle := None; audioMood := None;
  batchSize := Some (i_batchSize f);
  negativeIntensity := Some (i_negativeIntensity f)
|}.

(** [handleSubmit].  In text-to-image mode it calls
    [generateImageFromText(validPrompts, aspectRatio, style, negativePrompt,
    language, persona, styleIntensity, negativeIntensity, batchSize,
    currentSettings.seed)]; the function declares eight parameters, so its
    [seed] receives [negativeIntensity] and the last two arguments are
    dropped.  Its result is a string, which the handler indexes as an
    array ([results[0]], [results.slice(1)]). *)
Definition handleSubmit (env : ImageEnv) (f : ImageForm) : list IEffect :=
  let vps := validPrompts f in
  if Nat.eqb (List.length vps) 0
     || (isTransform f && negb (match i_imageFile f with Some _ => true | None => false end))
  then [I_SetError (Some "A valid prompt and image (for transform) are required.")]
  else
    let settings := currentSettings f in
    let history :=
      match PromptHistory.addPromptToHistory (i_promptHistory f) (join "; " vps) with
      | (h, Some stored) => [I_SetHistory h; I_StoreHistory stored]
      | (_, None) => []
      end in
    let body : list IEffect * option Exn :=
      match i_mode f, i_imageFile f with
      | image_transform, Some file =>
          match i_fileToBase64 env file with
          | Rejected e => ([I_ReadFile file], Some e)
          | Resolved image =>
              let reqs := [I_ReadFile file; I_RequestTransform (transformPrompt (Service.first_prompt vps)) image] in
              match transformImage_result (transformResponse env) with
              | Rejected e => (reqs, Some e)
              | Resolved result =>
                  ((reqs ++ [I_SetGeneratedImages (Arr [result]); I_SetSelectedImage (Some result);
                             I_SaveImage (Some result) settings None])%list, None)
              end
          end
      | _, _ =>
          let reqs := [I_RequestImages
                         (Service.constructImagePrompt vps (ImageStyle_lit (i_style f)) (i_negativePrompt f)
                            (i_language f) (i_persona f) (i_styleIntensity f))
                         1 (i_aspectRatio f) (SeedString (Intensity_lit (i_negativeIntensity f)))] in
          match generateImageFromText_result (imagesResponse env) with
          | Rejected e => (reqs, Some e)
          | Resolved results =>
              ((reqs ++ [I_SetGeneratedImages (Str results); I_SetSelectedImage (charAt0 results);
                         I_SaveImage (charAt0 results) settings (Some (Str (slice1 results)))])%list, None)
          end
      end in
    ([I_SetIsLoading true; I_SetError None; I_SetGeneratedImages (Arr []); I_SetSelectedImage None;
      I_SetVariations []; I_SetLoadingMessage (nth 0 IMAGE_LOADING_MESSAGES "");
      I_SetLastSettings settings]
     ++ history ++ fst body
     ++ match snd body with
        | Some err =>
            let errorMessage := errorMessage "An unknown error occurred." err in
            [I_SetError (Some errorMessage); I_SetToast errorMessage ToastError]
        | None => []
        end
     ++ [I_SetIsLoading false])%list.

End Submit.

(** [isLoading || prompts.every(p => p.trim() === '') || (mode === 'image-transform' && !imageFile)] *)
Definition isSubmitDisabled (isLoading : bool) (f : ImageForm) : bool :=
  isLoading || forallb (fun p => String.eqb (trim p) "") (i_prompts f)
  || (isTransform f && negb (match i_imageFile f with Some _ => true | None => false end)).

Definition isRequest (e : IEffect) : bool :=
  match e with I_RequestImages _ _ _ _ | I_RequestTransform _ _ => true | _ => false end.

Definition isSave (e : IEffect) : bool :=
  match e with I_SaveImage _ _ _ => true | _ => false end.

Definition isToast (e : IEffect) : bool :=
  match e with I_SetToast _ _ => true | _ => false end.

End ImageTools.

(* ------------------------------------------------------------------ *)
(** ** Sample inputs of the handlers above *)

Module ExtraSamples.
Import JS Types.

Definition png_file : VideoGenerator.File :=
  {| VideoGenerator.file_name := "fox.png"; VideoGenerator.file_type := "image/png" |}.
Definition text_file : VideoGenerator.File :=
  {| VideoGenerator.file_name := "notes.txt"; VideoGenerator.file_type := "text/plain" |}.

(** The video job succeeds after a minute and a half. *)
Definition resolving_env : VideoGenerator.SubmitEnv := {|
  VideoGenerator.fileToBase64 := fun _ => Resolved {| VideoGenerator.imageBytes := "AAAA"; VideoGenerator.mimeType := "image/png" |};
  VideoGenerator.videoSettle := (90000%N, Resolved "blob:https://app.example/5f1c");
  VideoGenerator.t0 := 0%N
|}.


Definition with_prompt_mode (p : string) (m : VideoGenerator.VideoToolMode) (file : option VideoGenerator.File)
  : VideoGenerator.Form := {|
  VideoGenerator.mode := m;
  VideoGenerator.prompt := p;
  VideoGenerator.f_negativePrompt := VideoGenerator.f_negativePrompt HandlerSamples.sample_form;
  VideoGenerator.f_style := VideoGenerator.f_style HandlerSamples.sample_form;
  VideoGenerator.f_duration := VideoGenerator.f_duration HandlerSamples.sample_form;
  VideoGenerator.f_cameraMovement := VideoGenerator.f_cameraMovement HandlerSamples.sample_form;
  VideoGenerator.f_quality := VideoGenerator.f_quality HandlerSamples.sample_form;
  VideoGenerator.f_language := VideoGenerator.f_language HandlerSamples.sample_form;
  VideoGenerator.f_framing := VideoGenerator.f_framing HandlerSamples.sample_form;
  VideoGenerator.f_persona := VideoGenerator.f_persona HandlerSamples.sample_form;
  VideoGenerator.loopVideo := VideoGenerator.loopVideo HandlerSamples.sample_form;
  VideoGenerator.f_aspectRatio := VideoGenerator.f_aspectRatio HandlerSamples.sample_form;
  VideoGenerator.f_fps := VideoGenerator.f_fps HandlerSamples.sample_form;
  VideoGenerator.f_motionIntensity := VideoGenerator.f_motionIntensity HandlerSamples.sample_form;
  VideoGenerator.f_audioMood := VideoGenerator.f_audioMood HandlerSamples.sample_form;
  VideoGenerator.imageFile := file;
  VideoGenerator.promptHistory := VideoGenerator.promptHistory HandlerSamples.sample_form
|}.

(** Image-to-video with a PNG, and a prompt of blanks. *)
Definition image_form : VideoGenerator.Form :=
  with_prompt_mode "make the fox run" VideoGenerator.image_to_video (Some png_file).
Definition blank_form : VideoGenerator.Form :=
  with_prompt_mode "   " VideoGenerator.text_to_video None.

(** A [localStorage] whose library entry is not JSON. *)
Definition corrupt_storage : TierStore.Storage :=
  fun k => if String.eqb k "creative-suite-library" then Some "[{broken" else None.

Definition sample_shell : AppShell.Shell := {|
  AppShell.activeMode := AppShell.GM_IMAGE; AppShell.subscriptionTier := free;
  AppShell.showUpgradeModal := false; AppShell.app := App.initialState;
  AppShell.storage := HandlerSamples.empty_storage
|}.

(** A decimal reader for the seed field. *)
Definition parse_decimal (s : string) : option N :=
  option_map N.of_uint (NilEmpty.uint_of_string s).

Definition text_image_form : ImageTools.ImageForm := {|
  ImageTools.i_mode := ImageTools.text_to_image;
  ImageTools.i_prompts := ["a castle on a hill"; "  "];
  ImageTools.i_negativePrompt := "blurry";
  ImageTools.i_style := fantasy;
  ImageTools.i_language := english;
  ImageTools.i_persona := illustrator;
  ImageTools.i_aspectRatio := ar_4_3;
  ImageTools.i_seed := "42";
  ImageTools.i_styleIntensity := balanced;
  ImageTools.i_negativeIntensity := strong;
  ImageTools.i_batchSize := 4;
  ImageTools.i_imageFile := None;
  ImageTools.i_promptHistory := []
|}.


(** Both image services answer with an image. *)
Definition image_env : ImageTools.ImageEnv := {|
  ImageTools.i_fileToBase64 := fun f => Resolved ("QUJD", VideoGenerator.file_type f);
  ImageTools.imagesResponse := Resolved (Some ["iVBORw0KGgo"]);
  ImageTools.transformResponse :=
    Resolved (Some [ImageService.TextPart "Here is the edited image."; ImageService.InlineDataPart "iVBORw0KGgo"])
|}.

(** The image services answer without an image. *)
Definition empty_image_env : ImageTools.ImageEnv := {|
  ImageTools.i_fileToBase64 := fun f => Resolved ("QUJD", VideoGenerator.file_type f);
  ImageTools.imagesResponse := Resolved (Some []);
  ImageTools.transformResponse := Resolved (Some [ImageService.TextPart "I cannot edit this image."])
|}.

End ExtraSamples.

(* ================================================================== *)
(** * Proofs *)

Module StrFacts.
Import JS.

Lemma app_assoc_str (a b c : string) : (a ++ b) ++ c = a ++ (b ++ c).
Proof. induction a as [|x a IH]; simpl; [reflexivity | now rewrite IH]. Qed.

Lemma app_nil_str (a : string) : a ++ "" = a.
Proof. induction a as [|x a IH]; simpl; [reflexivity | now rewrite IH]. Qed.

Lemma trim_end_app_nonempty (x y : string) :
  truthy (trim_end y) = true -> trim_end (x ++ y) = x ++ trim_end y.
Proof.
  intros Hy. induction x as [|c x IH]; simpl; [reflexivity|].
  rewrite IH. destruct x; simpl.
  - destruct (trim_end y); [discriminate|]. now rewrite andb_false_r.
  - now rewrite andb_false_r.
Qed.

Lemma trim_end_app_blank (x y : string) :
  trim_end y = "" -> trim_end (x ++ y) = trim_end x.
Proof.
  intros Hy. induction x as [|c x IH]; simpl; [exact Hy|]. now rewrite IH.
Qed.

(** A string that [trim_end] leaves alone keeps its place in front of
    anything appended to it. *)
Lemma trim_end_app_fixed (x y : string) :
  trim_end x = x -> trim_end (x ++ y) = x ++ trim_end y.
Proof.
  intros Hx. destruct (truthy (trim_end y)) eqn:Hy.
  - now apply trim_end_app_nonempty.
  - rewrite trim_end_app_blank; [|destruct (trim_end y); [reflexivity|discriminate]].
    rewrite Hx. destruct (trim_end y); [now rewrite app_nil_str | discriminate].
Qed.

Lemma trim_end_last_nonws (x : string) (c : ascii) :
  is_ws c = false -> trim_end (x ++ String c "") = x ++ String c "".
Proof.
  intros Hc. rewrite trim_end_app_nonempty; simpl; rewrite Hc; reflexivity.
Qed.

Lemma trim_end_idem (s : string) : trim_end (trim_end s) = trim_end s.
Proof.
  induction s as [|c s IH]; simpl; [reflexivity|].
  destruct (is_ws c && negb (truthy (trim_end s))) eqn:E; simpl; [reflexivity|].
  rewrite IH. now rewrite E.
Qed.

End StrFacts.

Module ImageProofs.
Import JS StrFacts ImageSpec.

Lemma trim_end_fixed_app (x y : string) :
  trim_end y = y -> truthy y = true -> trim_end (x ++ y) = x ++ y.
Proof. intros H1 H2. rewrite trim_end_app_nonempty; rewrite H1; auto. Qed.

Lemma dot_fixed (x : string) : trim_end (x ++ ".") = x ++ ".".
Proof. now apply trim_end_fixed_app. Qed.

Lemma intensity_fixed (i : Intensity) :
  trim_end (Service.intensityMap i) = Service.intensityMap i /\ truthy (Service.intensityMap i) = true.
Proof. destruct i; split; reflexivity. Qed.

Lemma style_fixed (style : string) (i : Intensity) :
  trim_end (style_instruction style i) = style_instruction style i.
Proof.
  unfold style_instruction. rewrite <- !app_assoc_str.
  destruct (intensity_fixed i). now apply trim_end_fixed_app.
Qed.

Lemma avoid_fixed (neg : string) : trim_end (avoid_instruction neg) = avoid_instruction neg.
Proof. unfold avoid_instruction. rewrite <- app_assoc_str. apply dot_fixed. Qed.

Lemma kin_fixed : trim_end kinyarwanda_instruction = kinyarwanda_instruction.
Proof. reflexivity. Qed.

Lemma request_fixed (ps : list string) : trim_end (request ps) = request ps.
Proof.
  destruct ps as [|p [|q r]]; unfold request, blend_request, create_request;
    rewrite <- ?app_assoc_str; apply dot_fixed.
Qed.

Lemma persona_head (per : AIPersona) :
  exists rest, Service.personaInstructions per = String "A" rest.
Proof. destruct per; eexists; reflexivity. Qed.

(** The code's main request is the specification's request. *)
Lemma mainPrompt_request (ps : list string) :
  ps <> [] ->
  (if Nat.ltb 1 (List.length ps) then
     "expertly blend the following distinct concepts into a single, cohesive, and beautiful image: "
       ++ join " and " (map (fun p => dq ++ p ++ dq) ps) ++ "."
   else "create the following image: " ++ Service.first_prompt ps ++ ".") = request ps.
Proof. intros H. destruct ps as [|p [|q r]]; [congruence | reflexivity | reflexivity]. Qed.

Lemma trim_start_persona (per : AIPersona) (y : string) :
  trim_start (Service.personaInstructions per ++ y) = Service.personaInstructions per ++ y.
Proof. destruct (persona_head per) as [rest ->]. reflexivity. Qed.

Lemma slot_fixed (b : bool) (x : string) :
  trim_end x = x -> trim_end (slot b x) = slot b x.
Proof. destruct b; simpl; auto. Qed.

Lemma substring_intro (a n b : string) : substring n (a ++ n ++ b).
Proof. exists a, b. reflexivity. Qed.

End ImageProofs.

Import JS StrFacts ImageSpec ImageProofs.

(** C1 (constructImagePrompt).  For a non-empty prompt list the
    instruction begins with the persona's text followed by the request,
    which blends the double-quoted prompts joined by [" and "] when there
    are several and asks for the single prompt's image otherwise; the
    Kinyarwanda, style (with the intensity text) and avoid instructions
    fill their slots exactly when the language is Kinyarwanda, the style
    is not ['none'] and the negative prompt is non-empty, and then occur in
    the result; the result has no leading or trailing whitespace. *)
Theorem constructImagePrompt_spec (ps : list string) (style neg : string)
    (lang : Language) (per : AIPersona) (si : Intensity) :
  ps <> [] ->
  let r := Service.constructImagePrompt ps style neg lang per si in
  r = Service.personaInstructions per ++ " " ++ request ps ++
      trim_end (" " ++ slot (is_kinyarwanda lang) kinyarwanda_instruction
                ++ " " ++ slot (negb (String.eqb style "none")) (style_instruction style si)
                ++ " " ++ slot (truthy neg) (avoid_instruction neg))
  /\ (lang = kinyarwanda -> substring kinyarwanda_instruction r)
  /\ (style <> "none" -> substring (style_instruction style si) r)
  /\ (neg <> "" -> substring (avoid_instruction neg) r)
  /\ trim r = r.
Proof.
  intros Hne r.
  set (P := Service.personaInstructions per).
  set (R := request ps).
  set (Ls := slot (is_kinyarwanda lang) kinyarwanda_instruction).
  set (Ss := slot (negb (String.eqb style "none")) (style_instruction style si)).
  set (Ns := slot (truthy neg) (avoid_instruction neg)).
  assert (HR : trim_end R = R /\ truthy R = true).
  { split; [apply request_fixed|]. unfold R. destruct ps as [|p [|q rr]]; reflexivity. }
  assert (HPR : trim_end (P ++ " " ++ R) = P ++ " " ++ R).
  { apply trim_end_fixed_app; [apply trim_end_fixed_app|]; tauto. }
  assert (Hr : r = trim_end (P ++ " " ++ R ++ " " ++ Ls ++ " " ++ Ss ++ " " ++ Ns)).
  { unfold r, Service.constructImagePrompt, trim. cbv zeta.
    rewrite (mainPrompt_request ps Hne). fold R. unfold P.
    rewrite trim_start_persona. fold P.
    replace (match lang with kinyarwanda => _ | english => "" end) with Ls
      by (unfold Ls; destruct lang; reflexivity).
    replace (if negb (String.eqb style "none") then _ else "") with Ss by reflexivity.
    replace (if truthy neg then _ else "") with Ns by reflexivity.
    reflexivity. }
  assert (Hshape : r = P ++ " " ++ R ++ trim_end (" " ++ Ls ++ " " ++ Ss ++ " " ++ Ns)).
  { rewrite Hr.
    replace (P ++ " " ++ R ++ " " ++ Ls ++ " " ++ Ss ++ " " ++ Ns)
      with ((P ++ " " ++ R) ++ (" " ++ Ls ++ " " ++ Ss ++ " " ++ Ns))
      by (now rewrite !app_assoc_str).
    rewrite trim_end_app_fixed by exact HPR.
    now rewrite !app_assoc_str. }
  split; [exact Hshape|]. split; [|split; [|split]].
  - (* Kinyarwanda *)
    intros ->. rewrite Hshape. unfold Ls; simpl slot.
    rewrite <- (app_assoc_str " " kinyarwanda_instruction).
    rewrite trim_end_app_fixed by (apply trim_end_fixed_app; reflexivity).
    exists (P ++ " " ++ R ++ " "), (trim_end (" " ++ Ss ++ " " ++ Ns)).
    now rewrite !app_assoc_str.
  - (* style *)
    intros Hs. assert (HS : Ss = style_instruction style si).
    { unfold Ss. apply String.eqb_neq in Hs. now rewrite Hs. }
    rewrite Hshape.
    replace (" " ++ Ls ++ " " ++ Ss ++ " " ++ Ns)
      with ((" " ++ Ls ++ " ") ++ (Ss ++ " " ++ Ns)) by (now rewrite !app_assoc_str).
    rewrite (trim_end_app_nonempty (" " ++ Ls ++ " ")).
    2:{ rewrite HS, trim_end_app_fixed by apply style_fixed. reflexivity. }
    rewrite HS, trim_end_app_fixed by apply style_fixed.
    exists (P ++ " " ++ R ++ " " ++ Ls ++ " "), (trim_end (" " ++ Ns)).
    now rewrite !app_assoc_str.
  - (* negative prompt *)
    intros Hn. assert (HN : Ns = avoid_instruction neg).
    { unfold Ns. destruct neg; [congruence | reflexivity]. }
    rewrite Hshape.
    replace (" " ++ Ls ++ " " ++ Ss ++ " " ++ Ns)
      with ((" " ++ Ls ++ " " ++ Ss ++ " ") ++ Ns) by (now rewrite !app_assoc_str).
    rewrite (trim_end_app_nonempty (" " ++ Ls ++ " " ++ Ss ++ " ")).
    2:{ rewrite HN, avoid_fixed. reflexivity. }
    rewrite HN, avoid_fixed.
    exists (P ++ " " ++ R ++ " " ++ Ls ++ " " ++ Ss ++ " "), "".
    rewrite app_nil_str. now rewrite !app_assoc_str.
  - (* trimmed *)
    unfold trim. rewrite Hshape at 1. fold P. unfold P. rewrite trim_start_persona. fold P.
    rewrite <- Hshape, Hr. apply trim_end_idem.
Qed.

Module WordsProofs.
Import JS StrFacts Words.

Lemma split_ws_cons (s : string) : exists w ws, split_ws s = w :: ws.
Proof.
  induction s as [|c r [w [ws IH]]]; simpl; [eauto|].
  destruct (is_ws c); [eauto|]. rewrite IH. eauto.
Qed.

Lemma split_ws_app_ws (a b : string) (c : ascii) :
  is_ws c = true -> split_ws (a ++ String c b) = (split_ws a ++ split_ws b)%list.
Proof.
  intros Hc. induction a as [|d a IH]; simpl.
  - now rewrite Hc.
  - destruct (is_ws d); [now rewrite IH|].
    rewrite IH. destruct (split_ws_cons a) as [w [ws ->]]. reflexivity.
Qed.

Lemma words_app_ws (a b : string) (c : ascii) :
  is_ws c = true -> words (a ++ String c b) = (words a ++ words b)%list.
Proof. intros Hc. unfold words. now rewrite split_ws_app_ws, filter_app. Qed.

Lemma words_ws_head (c : ascii) (r : string) :
  is_ws c = true -> words (String c r) = words r.
Proof. intros Hc. unfold words. simpl. now rewrite Hc. Qed.

Lemma words_blank_app (w b : string) : blank w = true -> words (w ++ b) = words b.
Proof.
  induction w as [|c w IH]; simpl; [reflexivity|].
  intros H. apply andb_prop in H as [Hc Hw]. rewrite words_ws_head by exact Hc. auto.
Qed.

(** A non-empty run of whitespace separates the words on its two sides. *)
Lemma words_sep (a w b : string) :
  blank w = true -> truthy w = true -> words (a ++ w ++ b) = (words a ++ words b)%list.
Proof.
  destruct w as [|c w]; [discriminate|]. simpl. intros H _.
  apply andb_prop in H as [Hc Hw].
  rewrite words_app_ws by exact Hc. now rewrite words_blank_app.
Qed.

Lemma words_empty : words "" = [].
Proof. reflexivity. Qed.

Lemma words_nonws_head (c : ascii) (r : string) :
  is_ws c = false -> exists w ws, words (String c r) = String c w :: ws.
Proof.
  intros Hc. unfold words. simpl. rewrite Hc.
  destruct (split_ws_cons r) as [w [ws ->]]. simpl. eauto.
Qed.

Lemma split_ws_no_ws (s : string) : Forall (fun w => no_ws w = true) (split_ws s).
Proof.
  induction s as [|c r IH]; simpl; [now repeat constructor|].
  destruct (is_ws c) eqn:Hc; [now constructor|].
  destruct (split_ws r) as [|w ws]; [constructor; [simpl; now rewrite Hc | constructor]|].
  inversion IH; subst. constructor; [simpl; now rewrite Hc|assumption].
Qed.

Lemma words_wf (s : string) :
  Forall (fun w => truthy w = true /\ no_ws w = true) (words s).
Proof.
  unfold words. pose proof (split_ws_no_ws s) as H. induction H as [|w ws Hw _ IH]; simpl.
  - constructor.
  - destruct (truthy w) eqn:E; [constructor; auto|auto].
Qed.

Lemma join_cons_char (c : ascii) (w : string) (ws : list string) :
  join " " (String c w :: ws) = String c (join " " (w :: ws)).
Proof. destruct ws; reflexivity. Qed.

Lemma join_app (l1 l2 : list string) :
  l1 <> [] -> l2 <> [] -> join " " (l1 ++ l2)%list = join " " l1 ++ " " ++ join " " l2.
Proof.
  intros H1 H2. induction l1 as [|x l1 IH]; [congruence|].
  destruct l1 as [|y l1].
  - simpl. destruct l2; [congruence|reflexivity].
  - change (join " " ((x :: y :: l1) ++ l2)%list) with (x ++ " " ++ join " " ((y :: l1) ++ l2)%list).
    rewrite IH by discriminate.
    change (join " " (x :: y :: l1)) with (x ++ " " ++ join " " (y :: l1)).
    now rewrite !app_assoc_str.
Qed.

Definition starts_ws (s : string) : bool :=
  match s with EmptyString => false | String c _ => is_ws c end.

Definition nonnil {A} (l : list A) : bool := match l with [] => false | _ => true end.

Lemma join_words_empty (s : string) : join " " (words s) = "" <-> words s = [].
Proof.
  split; [|now intros ->].
  pose proof (words_wf s) as H. destruct (words s) as [|w ws]; [auto|].
  inversion H as [|? ? [Hw _] _]; subst. destruct w; [discriminate|].
  rewrite join_cons_char. discriminate.
Qed.

(** [trim_end] of the collapsed text: the words joined by single spaces,
    preceded by one space when the text starts with whitespace outside a
    run. *)
Lemma trim_end_collapse (s : string) (b : bool) :
  trim_end (collapse_aux b s)
  = (if negb b && starts_ws s && nonnil (words s) then " " else "") ++ join " " (words s).
Proof.
  revert b. induction s as [|c r IH]; intros b; [destruct b; reflexivity|].
  simpl collapse_aux. destruct (is_ws c) eqn:Hc.
  - rewrite words_ws_head by exact Hc. destruct b.
    + rewrite IH. reflexivity.
    + simpl. rewrite IH. simpl.
      destruct (nonnil (words r)) eqn:Hn.
      * destruct (words r) as [|w ws] eqn:Hw; [discriminate|].
        pose proof (words_wf r) as Hwf. rewrite Hw in Hwf.
        inversion Hwf as [|? ? [Ht _] _]; subst. destruct w; [discriminate|].
        rewrite join_cons_char. simpl. now rewrite Hc.
      * destruct (words r); [|discriminate]. simpl. now rewrite Hc.
  - simpl. rewrite IH. simpl starts_ws. rewrite Hc, andb_false_r. simpl.
    unfold words. simpl. rewrite Hc.
    destruct (split_ws_cons r) as [w0 [rest Hsp]]. rewrite Hsp.
    destruct w0 as [|d w0].
    + (* r is empty or starts with whitespace *)
      destruct r as [|e r].
      * simpl in Hsp. injection Hsp as <-. reflexivity.
      * simpl in Hsp. destruct (is_ws e) eqn:He.
        -- injection Hsp as <-. simpl. rewrite He.
           destruct (filter truthy (split_ws r)); reflexivity.
        -- destruct (split_ws r); discriminate.
    + (* r starts with a non-whitespace character *)
      destruct r as [|e r]; [simpl in Hsp; discriminate|].
      simpl in Hsp. destruct (is_ws e) eqn:He; [discriminate|].
      simpl. rewrite He. simpl. destruct (filter truthy rest); reflexivity.
Qed.

Lemma trim_start_collapse_true (s : string) : trim_start (collapse_aux true s) = collapse_aux true s.
Proof.
  induction s as [|c r IH]; simpl; [reflexivity|].
  destruct (is_ws c) eqn:Hc; [exact IH|]. simpl. now rewrite Hc.
Qed.

(** Normalising ([replace(/\s+/g, ' ')] then [trim]) joins the words by
    single spaces. *)
Lemma normalize_words (s : string) : VideoSpec.normalize s = join " " (words s).
Proof.
  unfold VideoSpec.normalize, trim, collapse_ws.
  replace (trim_start (collapse_aux false s)) with (collapse_aux true s).
  - rewrite trim_end_collapse. reflexivity.
  - destruct s as [|c r]; [reflexivity|]. simpl.
    destruct (is_ws c) eqn:Hc.
    + simpl. now rewrite trim_start_collapse_true.
    + simpl. now rewrite Hc.
Qed.

End WordsProofs.

Module VideoProofs.
Import JS StrFacts Words WordsProofs VideoSpec.
Import (notations) ImageSpec.

Lemma words_nonws_nonnil (c : ascii) (r : string) :
  is_ws c = false -> words (String c r) <> [].
Proof. intros Hc. destruct (words_nonws_head c r Hc) as [w [ws ->]]. discriminate. Qed.

Lemma words_slot (b : bool) (x : string) :
  concat (map words (opt b x)) = words (ImageSpec.slot b x).
Proof. destruct b; simpl; [apply app_nil_r | reflexivity]. Qed.

Lemma Forall_opt (P : string -> Prop) (b : bool) (x : string) :
  P x -> Forall P (opt b x).
Proof. destruct b; simpl; auto. Qed.

Lemma join_map_join (l : list string) :
  Forall (fun p => words p <> []) l ->
  join " " (map (fun p => join " " (words p)) l) = join " " (concat (map words l)).
Proof.
  induction 1 as [|x l Hx Hl IH]; [reflexivity|].
  destruct l as [|y l].
  - simpl. now rewrite app_nil_r.
  - change (join " " (map (fun p => join " " (words p)) (x :: y :: l)))
      with (join " " (words x) ++ " " ++ join " " (map (fun p => join " " (words p)) (y :: l))).
    rewrite IH.
    change (concat (map words (x :: y :: l))) with (words x ++ concat (map words (y :: l)))%list.
    rewrite join_app; [reflexivity|exact Hx|].
    inversion Hl; subst. simpl. destruct (words y); [congruence|discriminate].
Qed.

Lemma words_lit_head (c : ascii) (r y : string) :
  is_ws c = false -> words (String c r ++ y) <> [].
Proof. intros Hc. exact (words_nonws_nonnil c (r ++ y) Hc). Qed.

Ltac head_word :=
  first [ apply words_lit_head | apply words_nonws_nonnil ]; vm_compute; reflexivity.

Lemma parts_nonnil (prompt : string) (style : VideoStyle) (neg : string)
    (duration : VideoDuration) (cam : CameraMovement) (q : VideoQuality)
    (lang : Language) (fr : VideoFraming) (per : AIPersona) (lp : bool)
    (ar : AspectRatio) (fps : VideoFPS) (mi : Intensity) (am : AudioMood) :
  Forall (fun p => words p <> [])
    (parts prompt style neg duration cam q lang fr per lp ar fps mi am).
Proof.
  unfold parts. repeat (apply Forall_app; split);
    try apply Forall_opt; try (apply Forall_cons; [|apply Forall_nil]);
    unfold header, language_instruction, style_instruction, camera_instruction,
      framing_instruction, duration_instruction, quality_sentence, aspect_instruction,
      fps_instruction, audio_instruction, negative_instruction, loop_sentence;
    try head_word.
  destruct (ImageProofs.persona_head per) as [rest ->]. head_word.
Qed.

(** The template of [constructVideoPrompt] with its instructions in slots
    and the whitespace between the lines made explicit. *)
Lemma constructVideoPrompt_template (prompt : string) (style : VideoStyle) (neg : string)
    (duration : VideoDuration) (cam : CameraMovement) (q : VideoQuality)
    (lang : Language) (fr : VideoFraming) (per : AIPersona) (lp : bool)
    (ar : AspectRatio) (fps : VideoFPS) (mi : Intensity) (am : AudioMood) :
  Service.constructVideoPrompt prompt style neg duration cam q lang fr per lp ar fps mi am
  = normalize (header per prompt ++ (" " ++ Service.nl_indent)
      ++ ImageSpec.slot (ImageSpec.is_kinyarwanda lang) language_instruction
      ++ Service.nl_indent ++ ImageSpec.slot (negb (is_none_style style)) (style_instruction style)
      ++ (" " ++ Service.nl_indent)
      ++ ImageSpec.slot (negb (is_none_camera cam)) (camera_instruction cam mi)
      ++ Service.nl_indent ++ ImageSpec.slot (negb (is_none_framing fr)) (framing_instruction fr)
      ++ Service.nl_indent ++ duration_instruction duration
      ++ Service.nl_indent ++ ImageSpec.slot (is_high q) quality_sentence
      ++ Service.nl_indent ++ aspect_instruction ar
      ++ Service.nl_indent ++ fps_instruction fps
      ++ Service.nl_indent ++ ImageSpec.slot (negb (is_none_mood am)) (audio_instruction am)
      ++ Service.nl_indent ++ ImageSpec.slot (truthy neg) (negative_instruction neg)
      ++ Service.nl_indent ++ ImageSpec.slot lp loop_sentence).
Proof.
  unfold Service.constructVideoPrompt, normalize, header. cbv zeta.
  replace (match lang with kinyarwanda => _ | english => "" end)
    with (ImageSpec.slot (ImageSpec.is_kinyarwanda lang) language_instruction)
    by (destruct lang; reflexivity).
  replace (match style with vs_none => "" | _ => _ end)
    with (ImageSpec.slot (negb (is_none_style style)) (style_instruction style))
    by (destruct style; reflexivity).
  replace (match cam with cm_none => "" | _ => _ end)
    with (ImageSpec.slot (negb (is_none_camera cam)) (camera_instruction cam mi))
    by (destruct cam; reflexivity).
  replace (match fr with vf_none => "" | _ => _ end)
    with (ImageSpec.slot (negb (is_none_framing fr)) (framing_instruction fr))
    by (destruct fr; reflexivity).
  replace (match q with high => _ | standard => "" end)
    with (ImageSpec.slot (is_high q) quality_sentence) by (destruct q; reflexivity).
  replace (match am with am_none => "" | _ => _ end)
    with (ImageSpec.slot (negb (is_none_mood am)) (audio_instruction am))
    by (destruct am; reflexivity).
  replace (if truthy neg then _ else "")
    with (ImageSpec.slot (truthy neg) (negative_instruction neg)) by reflexivity.
  replace (if lp then _ else "") with (ImageSpec.slot lp loop_sentence) by reflexivity.
  unfold duration_instruction, aspect_instruction, fps_instruction.
  rewrite !app_assoc_str. reflexivity.
Qed.

End VideoProofs.

Import Words WordsProofs VideoSpec VideoProofs.

(** C6 (constructVideoPrompt).  The instruction is the list of
    [VideoSpec.parts], each with its whitespace runs collapsed and its ends
    trimmed, joined by single spaces: the duration-goal, aspect-ratio and
    frame-rate instructions always, the camera, framing, style and
    audio-mood instructions exactly when the option is not ['none'], the 8K
    quality sentence exactly when the quality is ['high'] and the
    seamless-loop sentence exactly when [loop] holds.  The result is
    single-spaced: non-empty whitespace-free words joined by one space. *)
Theorem constructVideoPrompt_spec (prompt : string) (style : VideoStyle) (neg : string)
    (duration : VideoDuration) (cam : CameraMovement) (q : VideoQuality)
    (lang : Language) (fr : VideoFraming) (per : AIPersona) (lp : bool)
    (ar : AspectRatio) (fps : VideoFPS) (mi : Intensity) (am : AudioMood) :
  let r := Service.constructVideoPrompt prompt style neg duration cam q lang fr per lp ar fps mi am in
  r = join " " (map normalize (parts prompt style neg duration cam q lang fr per lp ar fps mi am))
  /\ single_spaced r.
Proof.
  intros r. unfold r. rewrite constructVideoPrompt_template, normalize_words.
  split.
  - rewrite !words_sep by reflexivity.
    erewrite map_ext by (intros; apply normalize_words).
    rewrite join_map_join by apply parts_nonnil.
    unfold parts. rewrite !map_app, !concat_app, !words_slot.
    cbn [map concat]. rewrite !app_nil_r. reflexivity.
  - eexists. split; [reflexivity | apply words_wf].
Qed.

Module VideoJobProofs.
Import JS VideoJob.

Lemma poll_loop_first (resp : nat -> Operation) (n : nat) :
  forall i fuel,
  done (resp (i + n)) = true ->
  (forall k, k < n -> done (resp (i + k)) = false) ->
  n <= fuel ->
  poll_loop fuel resp i = Some (resp (i + n), i + n, polls n).
Proof.
  induction n as [|m IH]; intros i fuel Hdone Hbefore Hfuel.
  - rewrite Nat.add_0_r in *. destruct fuel; simpl; now rewrite Hdone.
  - destruct fuel as [|f]; [lia|]. simpl.
    assert (H0 : done (resp i) = false).
    { specialize (Hbefore 0 ltac:(lia)). now rewrite Nat.add_0_r in Hbefore. }
    rewrite H0.
    rewrite (IH (S i) f).
    + now replace (S i + m) with (i + S m) by lia.
    + now replace (S i + m) with (i + S m) by lia.
    + intros k Hk. replace (S i + k) with (i + S k) by lia. apply Hbefore. lia.
    + lia.
Qed.

End VideoJobProofs.

Import VideoJob VideoJobProofs.

(** C2 (generateVideoInternal).  When [n] is the index of the first
    finished operation, the polling loop stops there after exactly [n]
    rounds of a ten-second sleep followed by one poll; it then resolves
    to the object URL of the downloaded video when that operation carries
    a non-empty URI and the download answers [ok], and throws
    ['Video generation failed or did not return a valid link.'] when the
    operation carries no URI (missing, or the empty string). *)
Theorem generateVideoInternal_spec (env : JobEnv) (n fuel : nat) :
  first_done (responses env) n -> n <= fuel ->
  poll_loop fuel (responses env) 0 = Some (responses env n, n, polls n)
  /\ (forall u, video_uri (responses env n) = Some u -> u <> "" ->
        let url := u ++ "&key=" ++ api_key env in
        ok (fetch env url) = true ->
        generateVideoInternal fuel env
        = Some (Resolved (createObjectURL env (body_blob (fetch env url))),
                (polls n ++ [Fetch url])%list))
  /\ ((video_uri (responses env n) = None \/ video_uri (responses env n) = Some "") ->
        generateVideoInternal fuel env
        = Some (Rejected (ErrorObj "Video generation failed or did not return a valid link."),
                polls n)).
Proof.
  intros [Hdone Hbefore] Hfuel.
  assert (Hloop : poll_loop fuel (responses env) 0 = Some (responses env n, n, polls n)).
  { apply (poll_loop_first (responses env) n 0 fuel); auto. }
  split; [exact Hloop|split].
  - intros u Hu Hne url Hok. unfold generateVideoInternal. rewrite Hloop.
    unfold downloadLink. rewrite Hu.
    destruct u as [|c u]; [congruence|]. simpl truthy. cbv iota beta.
    fold url. rewrite Hok. reflexivity.
  - intros Hnone. unfold generateVideoInternal. rewrite Hloop.
    unfold downloadLink. destruct Hnone as [-> | ->]; reflexivity.
Qed.

Module SubmitProofs.
Import VideoGenerator.

Ltac run_submit :=
  cbv beta iota zeta delta [bind emit ret await try_catch_finally app audioSettle
                            promise_all2 fst snd JS.truthy placeholderAudio].

(** The cases of a submission that passes validation: the mode and the
    image read, the history update, the audio mood and the video outcome. *)
Ltac submit_cases env f Hp Hm :=
  unfold run, handleSubmit, payload, soundRequests, isImageMode; rewrite Hp; cbn [negb];
  destruct (mode f) eqn:Emode;
  [ cbn [andb]
  | destruct Hm as (file & p & Hfile & Hread); rewrite Hfile, ?Hread; cbn [andb negb] ];
  unfold addPromptToHistoryM;
  destruct (PromptHistory.addPromptToHistory (promptHistory f) (prompt f)) as [h [stored|]];
  destruct (f_audioMood f);
  destruct (videoSettle env) as [tv [v|e]];
  run_submit.

Lemma submit_requests env f : submits env f ->
  filter isRequestOrAwait (run env f)
  = (RequestVideo (videoFinalPrompt f) (payload env f) :: soundRequests f ++ [AwaitAll])%list.
Proof.
  intros [Hp Hm]. submit_cases env f Hp Hm; reflexivity.
Qed.


(** C3 (VideoGenerator.handleSubmit).  For a submission that passes
    validation (and whose image, in image mode, is read), the handler
    issues exactly one video request and, iff the audio mood is not
    ['none'], one soundtrack request, both before the single [await] of
    [Promise.all] and none after it.  When the first of the two requests
    to reject (by settlement time) rejects with an [Error] of message [m],
    the error state ends as [m], the only toast is the error toast [m],
    and the loading flag ends false.  The soundtrack request is the mock
    [generateSoundEffect], which never rejects, so the first rejection is
    always the video's. *)
Theorem handleSubmit_first_error (env : SubmitEnv) (f : Form) (st : VGState) :
  submits env f ->
  let log := run env f in
  filter isRequestOrAwait log
  = (RequestVideo (videoFinalPrompt f) (payload env f) :: soundRequests f ++ [AwaitAll])%list
  /\ (forall t m,
        first_rejection
          [(fst (videoSettle env), rejection (snd (videoSettle env)));
           (fst (audioSettle (t0 env) (f_audioMood f)), rejection (snd (audioSettle (t0 env) (f_audioMood f))))]
        = Some (t, ErrorObj m) ->
        error (finalState st log) = Some m
        /\ filter isToast log = [SetToast m ToastError]
        /\ isLoading (finalState st log) = false).
Proof.
  intros Hs log. split; [apply submit_requests; exact Hs|].
  intros t m. destruct Hs as [Hp Hm]. subst log.
  submit_cases env f Hp Hm; intro Hr; cbn in Hr; try discriminate;
  injection Hr as <- ->; repeat split.
Qed.

(** C4 (VideoGenerator.handleSubmit).  When the video request rejects with
    an [Error] of message [m], the handler shows the error toast [m], has
    issued the video request once (no retry), never calls
    [onSaveToLibrary], so the library of [App] is what it was before, and
    ends with the loading flag false and the error state [m]. *)
Theorem handleSubmit_video_failure (env : SubmitEnv) (f : Form) (st : VGState)
    (app : App.AppState) (now : N) (m : string) :
  submits env f -> snd (videoSettle env) = Rejected (ErrorObj m) ->
  let log := run env f in
  In (SetToast m ToastError) log
  /\ filter isRequest log = (RequestVideo (videoFinalPrompt f) (payload env f) :: soundRequests f)%list
  /\ filter isSave log = []
  /\ App.libraryItems (appAfter now app log) = App.libraryItems app
  /\ isLoading (finalState st log) = false
  /\ error (finalState st log) = Some m.
Proof.
  intros [Hp Hm] Hv log. subst log.
  submit_cases env f Hp Hm; cbn in Hv; try discriminate; injection Hv as ->;
  repeat split; cbn; auto 20.
Qed.

End SubmitProofs.

Module LibraryProofs.
Import JS Types App.

Lemma truthy_app_r (a b : string) : truthy b = true -> truthy (a ++ b) = true.
Proof. destruct a; simpl; auto. Qed.

Lemma toISOString_nonempty (now : N) : truthy (Date.toISOString now) = true.
Proof. unfold Date.toISOString. cbv zeta. apply truthy_app_r. reflexivity. Qed.

Lemma runOps_items (ops : list LibraryOp) (st : AppState) (it : LibraryItem) :
  In it (libraryItems (runOps ops st)) ->
  In it (libraryItems st) \/ exists now item, In (OpSave now item) ops /\ it = newItem now item.
Proof.
  revert st. induction ops as [|op ops IH]; intros st Hin; [left; exact Hin|].
  simpl in Hin. destruct (IH _ Hin) as [H | (now & item & Hop & ->)].
  - destruct op as [now item | itemId |]; simpl in H.
    + destruct H as [<- | H]; [right; exists now, item; split; [left|]; reflexivity | left; exact H].
    + left. apply filter_In in H. apply H.
    + contradiction.
  - right. exists now, item. split; [right; exact Hop | reflexivity].
Qed.

(** C7 (library invariant).  After any sequence of saves, deletes and
    clears from the empty library, every item in the list was built by a
    save at some time [now]: its id is [item-] followed by [now] and its
    [createdAt] is [now] as an ISO string, both non-empty; its type is
    [IMAGE] or [VIDEO]; [src] and [settings] with its [prompts] array are
    fields of the record, present by construction. *)
Theorem library_fields_present (ops : list LibraryOp) :
  forall it, In it (libraryItems (runOps ops initialState)) ->
  (exists now item, In (OpSave now item) ops /\ it = newItem now item
     /\ id it = "item-" ++ Date.N_to_string now /\ createdAt it = Date.toISOString now)
  /\ truthy (id it) = true /\ truthy (createdAt it) = true
  /\ (type it = IMAGE \/ type it = VIDEO).
Proof.
  intros it Hin. destruct (runOps_items ops initialState it Hin) as [[] | (now & item & Hop & ->)].
  split; [exists now, item; repeat split; first [assumption | reflexivity]|].
  split; [reflexivity|]. split; [apply toISOString_nonempty|].
  unfold newItem; cbn [type]. destruct (item_type item); auto.
Qed.

Lemma filter_remove_id (itemId : string) (l : list LibraryItem) :
  filter (fun item => negb (String.eqb (id item) itemId)) l = remove_id itemId l.
Proof.
  induction l as [|it r IH]; [reflexivity|]. simpl.
  destruct (String.eqb (id it) itemId); simpl; rewrite IH; reflexivity.
Qed.

(** C10 (Library.handleDelete).  Deleting [itemId] leaves exactly the
    previous list with the items of id [itemId] removed, the others
    unchanged and in order ([remove_id]); an item is kept iff it was in
    the list and its id differs; when no item has that id the list is
    unchanged. *)
Theorem handleDelete_frame (itemId : string) (st : AppState) :
  libraryItems (handleDelete itemId st) = remove_id itemId (libraryItems st)
  /\ (forall it, In it (libraryItems (handleDelete itemId st))
                 <-> In it (libraryItems st) /\ id it <> itemId)
  /\ ((forall it, In it (libraryItems st) -> id it <> itemId) ->
      libraryItems (handleDelete itemId st) = libraryItems st).
Proof.
  assert (Hl : libraryItems (handleDelete itemId st) = remove_id itemId (libraryItems st)).
  { unfold handleDelete, addToast. simpl. apply filter_remove_id. }
  split; [exact Hl|]. split.
  - intros it. unfold handleDelete, addToast. simpl. rewrite filter_In.
    rewrite negb_true_iff, String.eqb_neq. reflexivity.
  - intros Hnone. rewrite Hl. clear Hl. induction (libraryItems st) as [|x r IH]; [reflexivity|].
    simpl. destruct (String.eqb (id x) itemId) eqn:E.
    + apply String.eqb_eq in E. exfalso. exact (Hnone x (or_introl eq_refl) E).
    + rewrite IH; [reflexivity|]. intros y Hy. apply Hnone. right. exact Hy.
Qed.

End LibraryProofs.

Module HistoryProofs.
Import JS PromptHistory.

Lemma filter_remove (p : string) (h : list string) :
  filter (fun q => negb (String.eqb q p)) h = remove string_dec p h.
Proof.
  induction h as [|q r IH]; [reflexivity|]. simpl.
  destruct (String.eqb q p) eqn:E; destruct (string_dec p q) as [Heq|Hne]; simpl.
  - exact IH.
  - apply String.eqb_eq in E. congruence.
  - apply String.eqb_neq in E. congruence.
  - rewrite IH. reflexivity.
Qed.

Lemma in_firstn {A} (n : nat) (x : A) (l : list A) : In x (firstn n l) -> In x l.
Proof.
  revert l. induction n as [|n IH]; intros [|y l] H; simpl in *; try contradiction.
  destruct H as [H|H]; [left; exact H | right; apply IH, H].
Qed.

(** C9 (usePromptHistory.addPromptToHistory).  A prompt that trims to the
    empty string leaves the history unchanged and writes nothing;
    otherwise the new history, also written to storage, is the prompt
    followed by the old history without its copies, cut to ten entries:
    at most ten entries, the prompt first, and exactly once. *)
Theorem addPromptToHistory_spec (h : list string) (p : string) :
  let (h', stored) := addPromptToHistory h p in
  (trim p = "" -> h' = h /\ stored = None)
  /\ (trim p <> "" ->
        h' = firstn 10 (p :: remove string_dec p h)
        /\ stored = Some h'
        /\ length h' <= 10
        /\ hd_error h' = Some p
        /\ count_occ string_dec h' p = 1).
Proof.
  unfold addPromptToHistory. destruct (trim p) as [|c r] eqn:Et; simpl negb; cbv iota.
  - split; [intros _; split; reflexivity | intros H; congruence].
  - split; [intros H; discriminate H|]. intros _.
    rewrite filter_remove. split; [reflexivity|]. split; [reflexivity|].
    split; [apply firstn_le_length|]. split; [reflexivity|].
    rewrite firstn_cons. cbn [count_occ]. destruct (string_dec p p) as [_|Hne]; [|congruence]. f_equal.
    apply count_occ_not_In. intros Hin. apply in_firstn in Hin.
    apply (remove_In string_dec h p Hin).
Qed.

End HistoryProofs.

Module PremiumProofs.
Import Premium.

(** C8 (VideoGenerator.handlePremiumFeature).  With the current tier at
    least the required one in the order free < silver < golden < diamond,
    the gated action runs; otherwise only [promptUpgrade] runs: the
    upgrade modal is shown and the gated setting is unchanged. *)
Theorem handlePremiumFeature_spec {A : Type} (current required : SubscriptionTier)
    (act : Screen A -> Screen A) (s : Screen A) :
  let r := handlePremiumFeature current required promptUpgrade act s in
  (at_least current required = true -> r = act s)
  /\ (at_least current required = false ->
        r = promptUpgrade s /\ setting r = setting s /\ showUpgradeModal r = true).
Proof.
  unfold handlePremiumFeature.
  destruct current, required; cbn; split; intro H; try discriminate H; repeat split; reflexivity.
Qed.

End PremiumProofs.

Module TierProofs.
Import JS TierStore.

Lemma tier_of_json_some (j : JSONValue) (t : SubscriptionTier) :
  tier_of_json j = Some t -> j = JString (tier_lit t).
Proof.
  destruct j as [s|]; [|discriminate]. unfold tier_of_json.
  destruct (String.eqb s "free") eqn:E1; [apply String.eqb_eq in E1; intros H; injection H as <-; subst; reflexivity|].
  destruct (String.eqb s "silver") eqn:E2; [apply String.eqb_eq in E2; intros H; injection H as <-; subst; reflexivity|].
  destruct (String.eqb s "golden") eqn:E3; [apply String.eqb_eq in E3; intros H; injection H as <-; subst; reflexivity|].
  destruct (String.eqb s "diamond") eqn:E4; [apply String.eqb_eq in E4; intros H; injection H as <-; subst; reflexivity|].
  discriminate.
Qed.

Lemma tier_of_json_lit (t : SubscriptionTier) : tier_of_json (JString (tier_lit t)) = Some t.
Proof. destruct t; reflexivity. Qed.

(** The library step never changes the tier. *)
Lemma load_library_tier (parse : string -> option JSONValue) (ls : Storage) (st : LoadState) :
  match load_library parse ls st with
  | inl st' | inr st' => subscriptionTier st' = subscriptionTier st
  end.
Proof.
  unfold load_library. destruct (ls "creative-suite-library") as [v|]; [|reflexivity].
  destruct (truthy v); [|reflexivity]. destruct (parse v); reflexivity.
Qed.

(** C5 (App tier persistence).  For a [JSON.parse] that reads back what
    [JSON.stringify] writes for the four tier names, and a stored library
    that is valid JSON, saving tier [t] and then running the startup load
    restores [t].  When the stored tier value does not parse to one of
    the four names, the startup load keeps the tier it had, [free] from
    the initial state. *)
Theorem tier_persistence (parse : string -> option JSONValue) (ls : Storage) :
  ((forall t, parse (JSON_stringify_string (tier_lit t)) = Some (JString (tier_lit t))) ->
   library_ok parse ls ->
   forall t st, subscriptionTier (startup_load parse (save_tier ls t) st) = t)
  /\ (forall v, ls "creative-suite-tier" = Some v ->
        (forall t, parse v <> Some (JString (tier_lit t))) ->
        (forall st, subscriptionTier (startup_load parse ls st) = subscriptionTier st)
        /\ subscriptionTier (startup_load parse ls initial) = free).
Proof.
  split.
  - intros Hparse Hlib t st.
    assert (Hk1 : save_tier ls t "creative-suite-library" = ls "creative-suite-library") by reflexivity.
    assert (Hk2 : save_tier ls t "creative-suite-tier" = Some (JSON_stringify_string (tier_lit t))) by reflexivity.
    unfold startup_load, load_library. rewrite Hk1.
    unfold library_ok in Hlib.
    assert (Htier : forall st', load_tier parse (save_tier ls t) st'
                                = inl {| loadedLibrary := loadedLibrary st'; subscriptionTier := t |}).
    { intros st'. unfold load_tier. rewrite Hk2.
      replace (truthy (JSON_stringify_string (tier_lit t))) with true by (destruct t; reflexivity).
      rewrite Hparse, tier_of_json_lit. reflexivity. }
    destruct (ls "creative-suite-library") as [v|]; [|rewrite Htier; reflexivity].
    destruct (truthy v) eqn:Ev; [|rewrite Htier; reflexivity].
    destruct (parse v) as [j|] eqn:Ep; [rewrite Htier; reflexivity|].
    exfalso. exact (Hlib eq_refl eq_refl).
  - intros v Hv Hout.
    assert (Hst : forall st, subscriptionTier (startup_load parse ls st) = subscriptionTier st).
    { intros st. unfold startup_load. pose proof (load_library_tier parse ls st) as Hl.
      destruct (load_library parse ls st) as [st'|st']; [|exact Hl].
      rewrite <- Hl. unfold load_tier. rewrite Hv.
      destruct (truthy v); [|reflexivity]. destruct (parse v) as [j|] eqn:Ep; [|reflexivity].
      destruct (tier_of_json j) as [t|] eqn:Et; [|reflexivity].
      exfalso. exact (Hout t (f_equal Some (tier_of_json_some j t Et))). }
    split; [exact Hst|]. apply Hst.
Qed.

End TierProofs.

Module SubmitExtraProofs.
Import JS Types VideoGenerator VideoGeneratorUI SubmitProofs.

Lemma history_blank (h : list string) (p : string) :
  trim p = "" -> PromptHistory.addPromptToHistory h p = (h, None).
Proof. intros Ht. unfold PromptHistory.addPromptToHistory. rewrite Ht. reflexivity. Qed.

(** A submission that passes the button's checks sets the loading flag
    first and clears it last, whatever the services do. *)
Lemma handleSubmit_brackets (env : SubmitEnv) (f : Form) :
  isSubmitDisabled false f = false ->
  hd_error (run env f) = Some (SetIsLoading true) /\ last (run env f) AwaitAll = SetIsLoading false.
Proof.
  unfold isSubmitDisabled, run, handleSubmit, isImageMode. intros H.
  destruct (prompt f) as [|c r]; [discriminate|].
  destruct (mode f); [|destruct (imageFile f) as [file|] eqn:Ef; [|discriminate]];
  cbn [negb truthy orb andb]; unfold addPromptToHistoryM;
  destruct (PromptHistory.addPromptToHistory (promptHistory f) (String c r)) as [h [stored|]];
  [ | | destruct (fileToBase64 env file) as [p|err] ..];
  try (destruct (f_audioMood f); destruct (videoSettle env) as [tv [v|e]]);
  run_submit; split; reflexivity.
Qed.

(** The two validation errors of [handleSubmit]: an empty prompt, and
    image-to-video mode without an image; each is the only effect. *)
Theorem handleSubmit_validation (env : SubmitEnv) (f : Form) :
  (prompt f = "" -> run env f = [SetError (Some "A prompt is required to generate a video.")])
  /\ (prompt f <> "" -> mode f = image_to_video -> imageFile f = None ->
      run env f = [SetError (Some "An image is required for image-to-video generation.")]).
Proof.
  split.
  - intros Hp. unfold run, handleSubmit. rewrite Hp. reflexivity.
  - intros Hp Hm Hf. unfold run, handleSubmit, isImageMode. rewrite Hm, Hf.
    destruct (prompt f) as [|c r]; [congruence|]. reflexivity.
Qed.

(** The submit button is disabled (when not loading) exactly when
    [handleSubmit] would stop at a validation error and do nothing else. *)
Theorem isSubmitDisabled_validation (env : SubmitEnv) (f : Form) :
  isSubmitDisabled false f = true <-> exists m, run env f = [SetError (Some m)].
Proof.
  split.
  - unfold isSubmitDisabled, run, handleSubmit. cbn [orb].
    destruct (truthy (prompt f)); cbn [negb orb]; [|intros _; eexists; reflexivity].
    destruct (isImageMode f && negb _); [|discriminate]. intros _. eexists; reflexivity.
  - intros [m Hm]. destruct (isSubmitDisabled false f) eqn:E; [reflexivity|].
    destruct (handleSubmit_brackets env f E) as [Hhd _]. rewrite Hm in Hhd.
    discriminate.
Qed.

(** A submission the button allows sets [isLoading] first and clears it
    last, so the loading flag is off when the handler returns, whatever
    the services do. *)
Theorem handleSubmit_loading_settles (env : SubmitEnv) (f : Form) (st : VGState) :
  isSubmitDisabled false f = false ->
  hd_error (run env f) = Some (SetIsLoading true)
  /\ last (run env f) AwaitAll = SetIsLoading false
  /\ isLoading (finalState st (run env f)) = false.
Proof.
  intros H. destruct (handleSubmit_brackets env f H) as [Hhd Hlast].
  split; [exact Hhd|]. split; [exact Hlast|].
  destruct (run env f) as [|e0 l] eqn:Er; [discriminate|].
  unfold finalState. rewrite (app_removelast_last AwaitAll (l := e0 :: l)) by discriminate.
  rewrite fold_left_app, Hlast. reflexivity.
Qed.

(** A prompt of blanks passes validation: the video (and sound)
    requests are made, but nothing is added to the prompt history. *)
Theorem handleSubmit_blank_prompt (env : SubmitEnv) (f : Form) :
  submits env f -> trim (prompt f) = "" ->
  filter isRequest (run env f) = (RequestVideo (videoFinalPrompt f) (payload env f) :: soundRequests f)%list
  /\ filter isHistory (run env f) = [].
Proof.
  intros [Hp Hm] Ht.
  unfold run, handleSubmit, payload, soundRequests, isImageMode; rewrite Hp; cbn [negb].
  unfold addPromptToHistoryM. rewrite (history_blank _ _ Ht).
  destruct (mode f) eqn:Emode;
  [ cbn [andb]
  | destruct Hm as (file & p & Hfile & Hread); rewrite Hfile, ?Hread; cbn [andb negb] ];
  destruct (f_audioMood f);
  destruct (videoSettle env) as [tv [v|e]];
  run_submit; split; reflexivity.
Qed.


(** A video job that succeeds saves exactly one library item (the video
    with the current settings and, for a mood, the placeholder audio),
    shows no toast, and leaves the video and audio on screen. *)
Theorem handleSubmit_success (env : SubmitEnv) (f : Form) (st : VGState)
    (app : App.AppState) (now : N) (url : string) :
  submits env f -> snd (videoSettle env) = Resolved url ->
  let log := run env f in
  filter isSave log = [SaveToLibrary (savedItem f url)]
  /\ filter isToast log = []
  /\ App.libraryItems (appAfter now app log) = App.newItem now (savedItem f url) :: App.libraryItems app
  /\ generatedVideo (finalState st log) = Some url
  /\ generatedAudio (finalState st log)
     = match f_audioMood f with am_none => None | _ => Some placeholderAudio end
  /\ error (finalState st log) = None
  /\ isLoading (finalState st log) = false.
Proof.
  intros [Hp Hm] Hv log. subst log. unfold savedItem.
  submit_cases env f Hp Hm; cbn in Hv; try discriminate; injection Hv as <-;
  repeat split.
Qed.

End SubmitExtraProofs.

Module RotationProofs.
Import VideoGenerator VideoGeneratorUI.

Lemma index_of_nth (msgs : list string) (i : nat) :
  NoDup msgs -> i < List.length msgs -> index_of msgs (nth i msgs "") = Some i.
Proof.
  intros Hnd. revert i. induction Hnd as [|y r Hy Hnd IH]; intros i Hi; [cbn in Hi; lia|].
  destruct i as [|i]; cbn [nth index_of].
  - now rewrite String.eqb_refl.
  - cbn in Hi. destruct (String.eqb y (nth i r "")) eqn:E.
    + apply String.eqb_eq in E. exfalso. apply Hy. rewrite E. apply nth_In. lia.
    + rewrite IH by lia. reflexivity.
Qed.

Lemma index_of_notin (msgs : list string) (x : string) :
  ~ In x msgs -> index_of msgs x = None.
Proof.
  induction msgs as [|y r IH]; intros Hx; [reflexivity|]. cbn [index_of].
  destruct (String.eqb y x) eqn:E.
  - apply String.eqb_eq in E. exfalso. apply Hx. left. exact E.
  - rewrite IH; [reflexivity|]. intros H. apply Hx. right. exact H.
Qed.

Lemma next_nth (msgs : list string) (i : nat) :
  NoDup msgs -> i < List.length msgs ->
  nextLoadingMessage msgs (nth i msgs "") = nth (S i mod List.length msgs) msgs "".
Proof.
  intros Hnd Hi. unfold nextLoadingMessage, indexOf. rewrite index_of_nth by assumption.
  f_equal. replace (Z.of_nat i + 1)%Z with (Z.of_nat (S i)) by lia.
  rewrite <- Nat2Z.inj_mod, Nat2Z.id. reflexivity.
Qed.

Lemma next_notin (msgs : list string) (x : string) :
  ~ In x msgs -> nextLoadingMessage msgs x = nth 0 msgs "".
Proof.
  intros Hx. unfold nextLoadingMessage, indexOf. rewrite index_of_notin by assumption.
  reflexivity.
Qed.

Lemma iter_next (msgs : list string) (k : nat) :
  NoDup msgs -> msgs <> [] ->
  Nat.iter k (nextLoadingMessage msgs) (nth 0 msgs "") = nth (k mod List.length msgs) msgs "".
Proof.
  intros Hnd Hne. assert (Hl : List.length msgs <> 0) by (destruct msgs; [congruence|discriminate]).
  induction k as [|k IH].
  - rewrite Nat.Div0.mod_0_l. reflexivity.
  - rewrite Nat.iter_succ, IH, next_nth by (try apply Nat.mod_upper_bound; assumption).
    f_equal. rewrite <- Nat.add_1_r, <- (Nat.add_1_r k). apply Nat.Div0.add_mod_idemp_l.
Qed.

(** The loading-message timer of both generators walks through the six
    messages in order and wraps around; an unknown message goes back to the
    first. *)
Theorem loadingMessage_cycle (k : nat) :
  Nat.iter k (nextLoadingMessage LOADING_MESSAGES) LOADING_MESSAGES_0
  = nth (k mod 6) LOADING_MESSAGES ""
  /\ Nat.iter k (nextLoadingMessage ImageTools.IMAGE_LOADING_MESSAGES) (nth 0 ImageTools.IMAGE_LOADING_MESSAGES "")
     = nth (k mod 6) ImageTools.IMAGE_LOADING_MESSAGES ""
  /\ (forall prev, ~ In prev LOADING_MESSAGES -> nextLoadingMessage LOADING_MESSAGES prev = LOADING_MESSAGES_0)
  /\ (forall prev, ~ In prev ImageTools.IMAGE_LOADING_MESSAGES ->
        nextLoadingMessage ImageTools.IMAGE_LOADING_MESSAGES prev = nth 0 ImageTools.IMAGE_LOADING_MESSAGES "").
Proof.
  assert (Hv : NoDup LOADING_MESSAGES)
    by (unfold LOADING_MESSAGES; repeat constructor; cbn; intros H;
        repeat destruct H as [H|H]; try discriminate; exact H).
  assert (Hi : NoDup ImageTools.IMAGE_LOADING_MESSAGES)
    by (unfold ImageTools.IMAGE_LOADING_MESSAGES; repeat constructor; cbn; intros H;
        repeat destruct H as [H|H]; try discriminate; exact H).
  split; [exact (iter_next LOADING_MESSAGES k Hv ltac:(discriminate))|].
  split; [exact (iter_next ImageTools.IMAGE_LOADING_MESSAGES k Hi ltac:(discriminate))|].
  split; intros prev Hp; apply next_notin; exact Hp.
Qed.

End RotationProofs.

Module EnhanceProofs.
Import JS Types StrFacts Words WordsProofs VideoSpec VideoProofs VideoGenerator VideoGeneratorUI.

(** The instruction as its parts, normalised and joined (the argument of
    [constructVideoPrompt_spec], as a lemma of its own). *)
Lemma constructVideoPrompt_parts (prompt : string) (style : VideoStyle) (neg : string)
    (duration : VideoDuration) (cam : CameraMovement) (q : VideoQuality)
    (lang : Language) (fr : VideoFraming) (per : AIPersona) (lp : bool)
    (ar : AspectRatio) (fps : VideoFPS) (mi : Intensity) (am : AudioMood) :
  Service.constructVideoPrompt prompt style neg duration cam q lang fr per lp ar fps mi am
  = join " " (map normalize (parts prompt style neg duration cam q lang fr per lp ar fps mi am)).
Proof.
  rewrite constructVideoPrompt_template, normalize_words.
  rewrite !words_sep by reflexivity.
  erewrite map_ext by (intros; apply normalize_words).
  rewrite join_map_join by apply parts_nonnil.
  unfold parts. rewrite !map_app, !concat_app, !words_slot.
  cbn [map concat]. rewrite !app_nil_r. reflexivity.
Qed.

Lemma join_In (x : string) (l : list string) : In x l -> substring x (join " " l).
Proof.
  induction l as [|a r IH]; [contradiction|]. intros [->|Hx].
  - destruct r as [|b r]; [exists "", ""; cbn; now rewrite StrFacts.app_nil_str|].
    exists "", (" " ++ join " " (b :: r)). reflexivity.
  - destruct (IH Hx) as (u & w & Hj). destruct r as [|b r]; [contradiction|].
    exists (a ++ " " ++ u), w. change (join " " (a :: b :: r)) with (a ++ " " ++ join " " (b :: r)).
    rewrite Hj, !StrFacts.app_assoc_str. reflexivity.
Qed.

(** The prompt of [enhanceVideo] always asks for high quality, and with
    a camera movement, for that movement at strong intensity, whatever the
    saved settings hold. *)
Theorem enhanceVideoPrompt_quality (p : string) (f : Form) :
  substring quality_sentence (enhanceVideoPrompt p f)
  /\ (f_cameraMovement f <> cm_none ->
      substring (camera_instruction (f_cameraMovement f) strong) (enhanceVideoPrompt p f)).
Proof.
  unfold enhanceVideoPrompt. cbv zeta. rewrite constructVideoPrompt_parts. split.
  - replace quality_sentence with (normalize quality_sentence) at 1 by (vm_compute; reflexivity).
    apply join_In, in_map. unfold parts. cbn [is_high opt].
    rewrite !in_app_iff. cbn [In]. tauto.
  - intros Hc.
    replace (camera_instruction (f_cameraMovement f) strong)
      with (normalize (camera_instruction (f_cameraMovement f) strong)) at 1
      by (destruct (f_cameraMovement f); vm_compute; reflexivity).
    apply join_In, in_map. unfold parts.
    replace (negb (is_none_camera (f_cameraMovement f))) with true
      by (destruct (f_cameraMovement f); [contradiction|reflexivity..]).
    cbn [opt]. rewrite !in_app_iff. cbn [In]. tauto.
Qed.

(** [handleEnhance] does nothing without saved settings, only prompts an
    upgrade below the diamond tier, and at the diamond tier issues one video
    request, for the enhanced prompt of the first saved prompt. *)
Theorem handleEnhance_gate (sub : SubscriptionTier) (o : Outcome string) (ls : option Form) :
  (ls = None -> handleEnhance sub o ls = [])
  /\ (forall f, ls = Some f -> sub <> diamond -> handleEnhance sub o ls = [PromptUpgrade])
  /\ (forall f, ls = Some f -> sub = diamond ->
        filter isRequest (enhanceEffects (handleEnhance sub o ls))
        = [RequestVideo (enhanceVideoPrompt (prompt f) f) None]
        /\ ~ In PromptUpgrade (handleEnhance sub o ls)).
Proof.
  split; [intros ->; reflexivity|]. split.
  - intros f -> Hs. destruct sub; [reflexivity..|contradiction].
  - intros f -> ->. destruct o as [url|e]; split; try reflexivity.
    all: cbn. all: intros H. all: repeat destruct H as [H|H]. all: try discriminate. all: exact H.
Qed.

(** A successful enhancement saves the new video with the prompt marked
    [(Enhanced)] and no audio, shows a success toast and ends with the
    loading flag cleared. *)
Theorem handleEnhance_success (f : Form) (st : VGState) (app : App.AppState) (now : N) (url : string) :
  let l := handleEnhance diamond (Resolved url) (Some f) in
  let item := {| item_type := VIDEO; item_src := url;
                 item_settings := withPrompts (currentSettings f) [prompt f ++ " (Enhanced)"];
                 item_audioSrc := None; item_variations := None |} in
  filter isSave (enhanceEffects l) = [SaveToLibrary item]
  /\ filter isToast (enhanceEffects l) = [SetToast "Video enhanced successfully!" ToastSuccess]
  /\ App.libraryItems (appAfter now app (enhanceEffects l)) = App.newItem now item :: App.libraryItems app
  /\ generatedVideo (enhanceState st l) = Some url
  /\ generatedAudio (enhanceState st l) = generatedAudio st
  /\ error (enhanceState st l) = None
  /\ isLoading (enhanceState st l) = false
  /\ last l PromptUpgrade = EE (SetIsLoading false).
Proof. repeat split. Qed.

(** A failed enhancement saves nothing, shows the error (the fallback
    ["Enhance failed."] for a non-[Error]), and clears both flags. *)
Theorem handleEnhance_failure (f : Form) (st : VGState) (app : App.AppState) (now : N) (e : Exn) :
  let l := handleEnhance diamond (Rejected e) (Some f) in
  let m := errorMessage "Enhance failed." e in
  filter isSave (enhanceEffects l) = []
  /\ filter isToast (enhanceEffects l) = [SetToast m ToastError]
  /\ App.libraryItems (appAfter now app (enhanceEffects l)) = App.libraryItems app
  /\ generatedVideo (enhanceState st l) = None
  /\ error (enhanceState st l) = Some m
  /\ isLoading (enhanceState st l) = false
  /\ In (SetIsEnhancing false) l.
Proof. repeat split. cbn. auto 20. Qed.

End EnhanceProofs.

Module PickerProofs.
Import VideoGenerator VideoGeneratorUI.

(** What the picker keeps: the preview is the blob URL of the held file,
    and a held file has an [image/] type. *)
Definition picker_ok (createObjectURL : File -> string) (s : Picker) : Prop :=
  p_imagePreview s = option_map createObjectURL (p_imageFile s)
  /\ (forall file, p_imageFile s = Some file -> String.prefix "image/" (file_type file) = true).

Lemma applyPickerOp_ok (url : File -> string) (s : Picker) (op : PickerOp) :
  picker_ok url s -> picker_ok url (applyPickerOp url s op).
Proof.
  intros [Hp Hf].
  assert (Hsel : forall file, picker_ok url (handleFileSelect url file s)).
  { intros file. unfold handleFileSelect.
    destruct (String.prefix "image/" (file_type file)) eqn:E.
    - split; [reflexivity|]. cbn. intros f' Hf'. injection Hf' as <-. exact E.
    - split; [exact Hp | exact Hf]. }
  destruct op as [[|file r]|[|file r]|]; cbn [applyPickerOp]; auto.
  - split; [exact Hp|exact Hf].
  - split; [exact Hp|exact Hf].
  - split; [reflexivity|discriminate].
Qed.

(** Whatever the sequence of file changes, drops and clears, the picked
    file is always an image and the preview is the object URL of the
    picked file. *)
Theorem runPicker_ok (url : File -> string) (ops : list PickerOp) :
  let s := runPicker url ops initialPicker in
  p_imagePreview s = option_map url (p_imageFile s)
  /\ (forall file, p_imageFile s = Some file -> String.prefix "image/" (file_type file) = true).
Proof.
  unfold runPicker. cut (forall s, picker_ok url s -> picker_ok url (fold_left (applyPickerOp url) ops s)).
  - intros H. apply H. split; [reflexivity|discriminate].
  - induction ops as [|op r IH]; intros s Hs; [exact Hs|]. cbn [fold_left].
    apply IH, applyPickerOp_ok, Hs.
Qed.

(** Picking a non-image keeps the previous file and sets an error; a
    later valid image replaces the file but does not clear the error. *)
Theorem handleFileSelect_reject_then_accept (url : File -> string) (bad good : File) (s : Picker) :
  String.prefix "image/" (file_type bad) = false ->
  String.prefix "image/" (file_type good) = true ->
  let s1 := handleFileSelect url bad s in
  let s2 := handleFileSelect url good s1 in
  p_imageFile s1 = p_imageFile s /\ p_imagePreview s1 = p_imagePreview s
  /\ p_error s1 = Some "Please select a valid image file."
  /\ p_imageFile s2 = Some good
  /\ p_error s2 = Some "Please select a valid image file."
  /\ p_toasts s2 = (p_toasts s ++ [("Invalid file type.", ToastError); ("Image loaded successfully.", ToastSuccess)])%list.
Proof.
  intros Hb Hg s1 s2. subst s1 s2. unfold handleFileSelect. rewrite Hb, Hg. cbn.
  repeat split. rewrite <- app_assoc. reflexivity.
Qed.

End PickerProofs.

Module Base64Proofs.
Import VideoGenerator VideoGeneratorUI.

Lemma split_on_nonnil (c : ascii) (s : string) : split_on c s <> [].
Proof. destruct s as [|d r]; cbn; [discriminate|]. destruct (Ascii.eqb d c); [discriminate|].
  destruct (split_on c r); discriminate. Qed.

Lemma split_on_prefix (c : ascii) (a r : string) :
  ~ In c (list_ascii_of_string a) ->
  split_on c (a ++ r) = match split_on c r with p :: ps => (a ++ p) :: ps | [] => [a] end.
Proof.
  induction a as [|d a IH]; intros Ha.
  - cbn [append]. destruct (split_on c r) eqn:E; [exfalso; exact (split_on_nonnil c r E)|reflexivity].
  - cbn [append split_on]. rewrite IH by (intros H; apply Ha; right; exact H).
    destruct (Ascii.eqb d c) eqn:E.
    + apply Ascii.eqb_eq in E. exfalso. apply Ha. left. exact E.
    + destruct (split_on c r) eqn:E2; [exfalso; exact (split_on_nonnil c r E2)|reflexivity].
Qed.

Lemma split_on_none (c : ascii) (a : string) :
  ~ In c (list_ascii_of_string a) -> split_on c a = [a].
Proof.
  intros Ha. rewrite <- (StrFacts.app_nil_str a), split_on_prefix by exact Ha.
  cbn [split_on]. rewrite StrFacts.app_nil_str. reflexivity.
Qed.

Lemma list_ascii_app (a b : string) :
  list_ascii_of_string (a ++ b) = (list_ascii_of_string a ++ list_ascii_of_string b)%list.
Proof. induction a as [|c a IH]; cbn; [reflexivity|now rewrite IH]. Qed.

(** The [onload] handler of [fileToBase64] returns the base64 part of a
    data URL, and [undefined] for a result without a comma. *)
Theorem base64Data_dataURL (file : File) (mime b64 : string) (result : string) :
  (~ In comma (list_ascii_of_string mime) -> ~ In comma (list_ascii_of_string b64) ->
   onload file ("data:" ++ mime ++ ";base64," ++ b64) = (Some b64, file_type file))
  /\ (~ In comma (list_ascii_of_string result) -> onload file result = (None, file_type file)).
Proof.
  split.
  - intros Hm Hb. unfold onload, base64Data. f_equal.
    replace ("data:" ++ mime ++ ";base64," ++ b64)
      with (("data:" ++ mime ++ ";base64") ++ String comma b64)
      by (rewrite !StrFacts.app_assoc_str; reflexivity).
    rewrite split_on_prefix.
    + cbn [split_on]. rewrite Ascii.eqb_refl, split_on_none by exact Hb. reflexivity.
    + rewrite !list_ascii_app. intros H. rewrite !in_app_iff in H.
      destruct H as [H|[H|H]]; [cbn in H; repeat destruct H as [H|H]; try discriminate; exact H
                               |exact (Hm H)|cbn in H; repeat destruct H as [H|H]; try discriminate; exact H].
  - intros Hr. unfold onload, base64Data. rewrite split_on_none by exact Hr. reflexivity.
Qed.

End Base64Proofs.

Module StartupProofs.
Import JS TierStore.

(** A stored library that is not JSON aborts the startup load before
    the tier is read: the saved tier is lost on reload. *)
Theorem startup_corrupt_library (parse : string -> option JSONValue) (ls : Storage)
    (st : LoadState) (v : string) :
  ls "creative-suite-library" = Some v -> truthy v = true -> parse v = None ->
  startup_load parse ls st = st
  /\ forall t, startup_load parse (save_tier ls t) st = st.
Proof.
  intros Hl Ht Hp. unfold startup_load, load_library.
  assert (Hk : forall t, save_tier ls t "creative-suite-library" = ls "creative-suite-library")
    by reflexivity.
  split; [|intros t; rewrite Hk]; rewrite Hl, Ht, Hp; reflexivity.
Qed.

(** Saving a tier and loading it back, for a [JSON.parse] that reads
    back the tier names and a stored library that parses. *)
Lemma restore_saved_tier (parse : string -> option JSONValue) (ls : Storage) (t : SubscriptionTier)
    (st : LoadState) :
  (forall t, parse (JSON_stringify_string (tier_lit t)) = Some (JString (tier_lit t))) ->
  library_ok parse ls ->
  subscriptionTier (startup_load parse (save_tier ls t) st) = t.
Proof.
  intros Hparse Hlib.
  assert (Hk1 : save_tier ls t "creative-suite-library" = ls "creative-suite-library") by reflexivity.
  assert (Hk2 : save_tier ls t "creative-suite-tier" = Some (JSON_stringify_string (tier_lit t))) by reflexivity.
  unfold startup_load, load_library. rewrite Hk1. unfold library_ok in Hlib.
  assert (Htier : forall st', load_tier parse (save_tier ls t) st'
                              = inl {| loadedLibrary := loadedLibrary st'; subscriptionTier := t |}).
  { intros st'. unfold load_tier. rewrite Hk2.
    replace (truthy (JSON_stringify_string (tier_lit t))) with true by (destruct t; reflexivity).
    rewrite Hparse, TierProofs.tier_of_json_lit. reflexivity. }
  destruct (ls "creative-suite-library") as [v|]; [|rewrite Htier; reflexivity].
  destruct (truthy v) eqn:Ev; [|rewrite Htier; reflexivity].
  destruct (parse v) as [j|] eqn:Ep; [rewrite Htier; reflexivity|].
  exfalso. exact (Hlib eq_refl eq_refl).
Qed.

End StartupProofs.

Module ShellProofs.
Import JS TierStore AppShell.

(** Upgrade prompt, premium plans and subscription: the modal closes,
    the profile opens, the tier is set, a success toast names the plan, and
    the tier survives a reload. *)
Theorem subscribe_after_upgrade_prompt (parse : string -> option JSONValue) (sh : Shell)
    (t : SubscriptionTier) (st : LoadState) :
  (forall t, parse (JSON_stringify_string (tier_lit t)) = Some (JString (tier_lit t))) ->
  library_ok parse (storage sh) ->
  let sh' := handleSetSubscriptionTier t (viewPremiumPlans (promptUpgrade sh)) in
  showUpgradeModal sh' = false
  /\ activeMode sh' = GM_PROFILE
  /\ AppShell.subscriptionTier sh' = t
  /\ App.toasts (app sh') = (App.toasts (app sh) ++
       [{| App.message := "Successfully subscribed to the " ++ planName t ++ " plan!";
           App.toast_type := ToastSuccess |}])%list
  /\ TierStore.subscriptionTier (startup_load parse (storage sh') st) = t.
Proof.
  intros Hparse Hlib sh'. repeat split; [destruct t; reflexivity|].
  apply StartupProofs.restore_saved_tier; assumption.
Qed.

End ShellProofs.

Module LibraryExtraProofs.
Import JS Types App.

Lemma N_to_string_inj (a b : N) : Date.N_to_string a = Date.N_to_string b -> a = b.
Proof.
  unfold Date.N_to_string. intros H.
  apply (f_equal NilEmpty.uint_of_string) in H. rewrite !NilEmpty.usu in H.
  injection H as H. exact (DecimalN.Unsigned.to_uint_inj a b H).
Qed.

Lemma append_cancel_l (p a b : string) : p ++ a = p ++ b -> a = b.
Proof. induction p as [|c p IH]; cbn; [auto|]. intros H. injection H as H. auto. Qed.

Lemma newItem_id_eqb (t1 t2 : N) (i1 i2 : SaveItem) :
  String.eqb (id (newItem t2 i2)) (id (newItem t1 i1)) = N.eqb t2 t1.
Proof.
  unfold newItem. cbn [id]. destruct (N.eqb t2 t1) eqn:E.
  - apply N.eqb_eq in E. subst. apply String.eqb_refl.
  - apply String.eqb_neq. intros H. apply append_cancel_l, N_to_string_inj in H.
    apply N.eqb_neq in E. contradiction.
Qed.

(** Deleting the first of two saved items also deletes the second when
    both were saved in the same millisecond (their ids coincide). *)
Theorem delete_after_two_saves (t1 t2 : N) (i1 i2 : SaveItem) (st : AppState) :
  let st' := handleSaveToLibrary t2 i2 (handleSaveToLibrary t1 i1 st) in
  let keep := filter (fun item => negb (String.eqb (id item) (id (newItem t1 i1)))) (libraryItems st) in
  libraryItems (handleDelete (id (newItem t1 i1)) st')
  = if N.eqb t2 t1 then keep else newItem t2 i2 :: keep.
Proof.
  cbn [handleDelete handleSaveToLibrary addToast libraryItems filter].
  rewrite newItem_id_eqb, String.eqb_refl. cbn [negb].
  destruct (N.eqb t2 t1); reflexivity.
Qed.

End LibraryExtraProofs.

Module ImageToolsProofs.
Import JS Types ImageService ImageTools.

Lemma validPrompts_nil (f : ImageForm) :
  Nat.eqb (List.length (validPrompts f)) 0 = forallb (fun p => String.eqb (trim p) "") (i_prompts f).
Proof.
  unfold validPrompts. induction (i_prompts f) as [|p r IH]; [reflexivity|].
  cbn [filter forallb]. destruct (String.eqb (trim p) ""); cbn [negb andb]; [exact IH|reflexivity].
Qed.

(** The image tools' submit button is disabled (when not loading)
    exactly when [handleSubmit] would stop at its validation error. *)
Theorem image_isSubmitDisabled_validation (parseInt10 : string -> option N) (env : ImageEnv) (f : ImageForm) :
  isSubmitDisabled false f = true <-> exists m, handleSubmit parseInt10 env f = [I_SetError (Some m)].
Proof.
  unfold isSubmitDisabled, handleSubmit. rewrite validPrompts_nil. cbn [orb].
  split.
  - intros H. rewrite H. eexists; reflexivity.
  - destruct (_ || _); [intros _; reflexivity|].
    intros [m Hm]. cbn [app] in Hm. discriminate.
Qed.

(** In text-to-image mode the request asks for one image with the
    negative intensity as its seed: the seed field and the batch size are
    never sent. *)
Theorem text_to_image_request (parseInt10 : string -> option N) (env : ImageEnv) (f : ImageForm) :
  isSubmitDisabled false f = false -> isTransform f = false ->
  filter isRequest (handleSubmit parseInt10 env f)
  = [I_RequestImages
       (Service.constructImagePrompt (validPrompts f) (ImageStyle_lit (i_style f)) (i_negativePrompt f)
          (i_language f) (i_persona f) (i_styleIntensity f))
       1 (i_aspectRatio f) (SeedString (Intensity_lit (i_negativeIntensity f)))].
Proof.
  unfold isSubmitDisabled, handleSubmit. rewrite validPrompts_nil. cbn [orb].
  intros Hd Ht. rewrite Hd.
  unfold isTransform in Ht. destruct (i_mode f); [|discriminate].
  destruct (PromptHistory.addPromptToHistory _ _) as [h [stored|]];
  destruct (generateImageFromText_result (imagesResponse env)) as [r|e]; reflexivity.
Qed.

(** A generated image is saved with [src] the single character ["d"]
    and the rest of the data URL as its variations; a response without
    images saves nothing and shows the service's error. *)
Theorem text_to_image_results (parseInt10 : string -> option N) (env : ImageEnv) (f : ImageForm) :
  isSubmitDisabled false f = false -> isTransform f = false ->
  (forall b bs, imagesResponse env = Resolved (Some (b :: bs)) ->
     filter isSave (handleSubmit parseInt10 env f)
     = [I_SaveImage (Some "d") (currentSettings parseInt10 f) (Some (Str ("ata:image/png;base64," ++ b)))]
     /\ In (I_SetGeneratedImages (Str (dataURL b))) (handleSubmit parseInt10 env f)
     /\ filter isToast (handleSubmit parseInt10 env f) = [])
  /\ (forall r, imagesResponse env = Resolved r -> match r with Some (_ :: _) => False | _ => True end ->
     filter isSave (handleSubmit parseInt10 env f) = []
     /\ filter isToast (handleSubmit parseInt10 env f)
        = [I_SetToast "Image generation failed or returned no images." ToastError]).
Proof.
  unfold isSubmitDisabled, handleSubmit. rewrite validPrompts_nil. cbn [orb].
  intros Hd Ht. rewrite Hd.
  unfold isTransform in Ht. destruct (i_mode f); [|discriminate].
  split.
  - intros b bs Hr. unfold generateImageFromText_result. rewrite Hr.
    destruct (PromptHistory.addPromptToHistory _ _) as [h [stored|]];
    cbn; repeat split; auto 20.
  - intros r Hr Hn. unfold generateImageFromText_result. rewrite Hr.
    destruct r as [[|b bs]|]; [| contradiction Hn |];
    destruct (PromptHistory.addPromptToHistory _ _) as [h [stored|]];
    cbn; repeat split.
Qed.


End ImageToolsProofs.

Module VariationProofs.
Import JS ImageService VideoGenerator.

Lemma promise_all_rejection {A} (ps : list (N * Outcome A)) :
  match promise_all ps with (t, Rejected e) => Some (t, e) | (_, Resolved _) => None end
  = first_rejection (map (fun p => (fst p, rejection (snd p))) ps).
Proof.
  induction ps as [|[ta [x|ea]] r IH]; [reflexivity| |];
  cbn [promise_all map first_rejection fst snd rejection];
  destruct (promise_all r) as [tr [xs|er]]; cbn [promise_all2]; rewrite <- IH;
  try destruct (tr <? ta)%N; reflexivity.
Qed.

Lemma map_Resolved_inj {A} (xs ys : list A) :
  map (@Resolved A) xs = map (@Resolved A) ys -> xs = ys.
Proof.
  revert ys. induction xs as [|x xs IH]; intros [|y ys] H; try discriminate; [reflexivity|].
  injection H as -> H. f_equal. apply IH, H.
Qed.

Lemma promise_all_resolved {A} (ps : list (N * Outcome A)) (xs : list A) :
  snd (promise_all ps) = Resolved xs <-> map snd ps = map Resolved xs.
Proof.
  revert xs. induction ps as [|[ta [x|ea]] r IH]; intros xs.
  - destruct xs; cbn; split; congruence.
  - cbn [promise_all map snd].
    destruct (promise_all r) as [tr [ys|er]] eqn:Er; cbn [promise_all2 snd].
    + specialize (IH ys). cbn [snd] in IH.
      destruct xs as [|x' xs]; cbn [map]; split; intros H; try discriminate.
      * injection H as <- <-. f_equal. apply IH. reflexivity.
      * injection H as Hx Hr. subst x'. rewrite (proj1 IH eq_refl) in Hr.
        apply map_Resolved_inj in Hr. subst. reflexivity.
    + split; intros H; [discriminate|].
      destruct xs as [|x' xs]; [discriminate|]. cbn [map] in H. injection H as _ Hr.
      specialize (IH xs). cbn [snd] in IH. apply IH in Hr. discriminate.
  - cbn [promise_all map snd].
    destruct (promise_all r) as [tr [ys|er]]; cbn [promise_all2 snd];
    [|destruct (tr <? ta)%N]; split; intros H; try discriminate;
    destruct xs; cbn [map] in H; discriminate.
Qed.

(** [generateImageVariations] issues four identical transform requests
    and resolves with their four images in order exactly when all four
    resolve; otherwise it rejects with the first rejection. *)
Theorem generateImageVariations_all (prompt : string) (originalImage : string * string)
    (settle : nat -> N * Outcome (option (list Part))) :
  let g := generateImageVariations prompt originalImage settle in
  fst g = repeat (transformPrompt (variationPrompt prompt), originalImage) 4
  /\ (forall xs, snd (snd g) = Resolved xs <->
        map (fun i => transformImage_result (snd (settle i))) (seq 0 4) = map Resolved xs)
  /\ match snd g with (t, Rejected e) => Some (t, e) | (_, Resolved _) => None end
     = first_rejection (map (fun i => (fst (settle i), rejection (transformImage_result (snd (settle i))))) (seq 0 4)).
Proof.
  intros g. unfold g, generateImageVariations. cbn [fst snd]. split; [reflexivity|]. split.
  - intros xs. rewrite promise_all_resolved, map_map. reflexivity.
  - rewrite promise_all_rejection, map_map. reflexivity.
Qed.

End VariationProofs.

(** Witnesses: the theorems above applied at concrete inputs. *)

Lemma constructImagePrompt_spec_witness :
  ["a cat"; "a dog"] <> [] /\
  (let r := Service.constructImagePrompt ["a cat"; "a dog"] "pixel-art" "blur" kinyarwanda photographer strong in
   r = Service.personaInstructions photographer ++ " " ++ request ["a cat"; "a dog"] ++
       trim_end (" " ++ slot (is_kinyarwanda kinyarwanda) kinyarwanda_instruction
                 ++ " " ++ slot (negb (String.eqb "pixel-art" "none")) (ImageSpec.style_instruction "pixel-art" strong)
                 ++ " " ++ slot (truthy "blur") (avoid_instruction "blur"))
   /\ (kinyarwanda = kinyarwanda -> substring kinyarwanda_instruction r)
   /\ ("pixel-art" <> "none" -> substring (ImageSpec.style_instruction "pixel-art" strong) r)
   /\ ("blur" <> "" -> substring (avoid_instruction "blur") r)
   /\ trim r = r).
Proof.
  split; [discriminate|].
  apply (constructImagePrompt_spec ["a cat"; "a dog"] "pixel-art" "blur" kinyarwanda photographer strong).
  discriminate.
Defined.

Lemma generateVideoInternal_spec_witness :
  first_done (responses Samples.sample_job) 2 /\ 2 <= 2 /\
  (poll_loop 2 (responses Samples.sample_job) 0
     = Some (responses Samples.sample_job 2, 2, polls 2)
   /\ (forall u, video_uri (responses Samples.sample_job 2) = Some u -> u <> "" ->
        let url := u ++ "&key=" ++ api_key Samples.sample_job in
        ok (fetch Samples.sample_job url) = true ->
        generateVideoInternal 2 Samples.sample_job
        = Some (Resolved (createObjectURL Samples.sample_job (body_blob (fetch Samples.sample_job url))),
                (polls 2 ++ [Fetch url])%list))
   /\ ((video_uri (responses Samples.sample_job 2) = None
        \/ video_uri (responses Samples.sample_job 2) = Some "") ->
        generateVideoInternal 2 Samples.sample_job
        = Some (Rejected (ErrorObj "Video generation failed or did not return a valid link."),
                polls 2))).
Proof.
  assert (H : first_done (responses Samples.sample_job) 2).
  { split; [reflexivity|]. intros k Hk. destruct k as [|[|k]]; [reflexivity|reflexivity|lia]. }
  split; [exact H|]. split; [lia|].
  apply (generateVideoInternal_spec Samples.sample_job 2 2 H). lia.
Defined.

Lemma handleSubmit_first_error_witness :
  VideoGenerator.submits HandlerSamples.failing_env HandlerSamples.sample_form
  /\ VideoGenerator.error
       (VideoGenerator.finalState HandlerSamples.initial_vg
          (VideoGenerator.run HandlerSamples.failing_env HandlerSamples.sample_form))
     = Some "Quota exceeded."
  /\ filter VideoGenerator.isToast
       (VideoGenerator.run HandlerSamples.failing_env HandlerSamples.sample_form)
     = [VideoGenerator.SetToast "Quota exceeded." ToastError].
Proof.
  assert (Hs : VideoGenerator.submits HandlerSamples.failing_env HandlerSamples.sample_form).
  { split; [reflexivity | exact I]. }
  destruct (SubmitProofs.handleSubmit_first_error HandlerSamples.failing_env
              HandlerSamples.sample_form HandlerSamples.initial_vg Hs) as [_ H].
  destruct (H 60000%N "Quota exceeded." eq_refl) as (He & Ht & _).
  split; [exact Hs | split; [exact He | exact Ht]].
Defined.

Lemma handleSubmit_video_failure_witness :
  VideoGenerator.submits HandlerSamples.failing_env HandlerSamples.sample_form
  /\ snd (VideoGenerator.videoSettle HandlerSamples.failing_env) = Rejected (ErrorObj "Quota exceeded.")
  /\ App.libraryItems
       (VideoGenerator.appAfter 1700000000000%N App.initialState
          (VideoGenerator.run HandlerSamples.failing_env HandlerSamples.sample_form))
     = []
  /\ VideoGenerator.isLoading
       (VideoGenerator.finalState HandlerSamples.initial_vg
          (VideoGenerator.run HandlerSamples.failing_env HandlerSamples.sample_form))
     = false.
Proof.
  assert (Hs : VideoGenerator.submits HandlerSamples.failing_env HandlerSamples.sample_form).
  { split; [reflexivity | exact I]. }
  assert (Hv : snd (VideoGenerator.videoSettle HandlerSamples.failing_env) = Rejected (ErrorObj "Quota exceeded.")).
  { reflexivity. }
  destruct (SubmitProofs.handleSubmit_video_failure HandlerSamples.failing_env
              HandlerSamples.sample_form HandlerSamples.initial_vg App.initialState
              1700000000000%N "Quota exceeded." Hs Hv) as (_ & _ & _ & Hl & Hi & _).
  split; [exact Hs | split; [exact Hv | split; [exact Hl | exact Hi]]].
Defined.

Lemma library_fields_present_witness :
  In (App.newItem 1700000009000%N HandlerSamples.sample_item)
     (App.libraryItems (App.runOps HandlerSamples.sample_ops App.initialState))
  /\ JS.truthy (Types.createdAt (App.newItem 1700000009000%N HandlerSamples.sample_item)) = true
  /\ JS.truthy (Types.id (App.newItem 1700000009000%N HandlerSamples.sample_item)) = true.
Proof.
  assert (Hin : In (App.newItem 1700000009000%N HandlerSamples.sample_item)
                   (App.libraryItems (App.runOps HandlerSamples.sample_ops App.initialState))).
  { vm_compute. left. reflexivity. }
  destruct (LibraryProofs.library_fields_present HandlerSamples.sample_ops _ Hin) as (_ & Hid & Hc & _).
  split; [exact Hin | split; [exact Hc | exact Hid]].
Defined.

Lemma handleDelete_frame_witness :
  let st := App.runOps HandlerSamples.sample_ops App.initialState in
  (forall it, In it (App.libraryItems st) -> Types.id it <> "item-42")
  /\ App.libraryItems (App.handleDelete "item-42" st) = App.libraryItems st
  /\ App.libraryItems (App.handleDelete "item-1700000005000" st)
     = App.remove_id "item-1700000005000" (App.libraryItems st).
Proof.
  intros st.
  assert (Hnone : forall it, In it (App.libraryItems st) -> Types.id it <> "item-42").
  { intros it Hit. vm_compute in Hit.
    destruct Hit as [<- | [<- | []]]; vm_compute; discriminate. }
  split; [exact Hnone|]. split.
  - exact (proj2 (proj2 (LibraryProofs.handleDelete_frame "item-42" st)) Hnone).
  - exact (proj1 (LibraryProofs.handleDelete_frame "item-1700000005000" st)).
Defined.

Lemma addPromptToHistory_spec_witness :
  JS.trim " a fox " <> ""
  /\ (let (h', stored) := PromptHistory.addPromptToHistory ["b"; " a fox "] " a fox " in
      h' = firstn 10 (" a fox " :: remove string_dec " a fox " ["b"; " a fox "])
      /\ count_occ string_dec h' " a fox " = 1).
Proof.
  assert (Hne : JS.trim " a fox " <> "") by (vm_compute; discriminate).
  split; [exact Hne|].
  pose proof (HistoryProofs.addPromptToHistory_spec ["b"; " a fox "] " a fox ") as T. revert T.
  destruct (PromptHistory.addPromptToHistory ["b"; " a fox "] " a fox ") as [h' stored].
  intros [_ T]. destruct (T Hne) as (E & _ & _ & _ & C). split; [exact E | exact C].
Defined.

Lemma handlePremiumFeature_spec_witness :
  Premium.at_least silver golden = false
  /\ Premium.setting
       (Premium.handlePremiumFeature silver golden Premium.promptUpgrade (Premium.setSetting long)
          {| Premium.showUpgradeModal := false; Premium.setting := short |})
     = short.
Proof.
  assert (H : Premium.at_least silver golden = false) by reflexivity.
  split; [exact H|].
  destruct (proj2 (PremiumProofs.handlePremiumFeature_spec silver golden (Premium.setSetting long)
                     {| Premium.showUpgradeModal := false; Premium.setting := short |}) H)
    as (_ & Hs & _).
  exact Hs.
Defined.

Lemma tier_persistence_witness :
  (forall t, HandlerSamples.parse_string_literal (TierStore.JSON_stringify_string (TierStore.tier_lit t))
             = Some (TierStore.JString (TierStore.tier_lit t)))
  /\ TierStore.library_ok HandlerSamples.parse_string_literal HandlerSamples.empty_storage
  /\ TierStore.subscriptionTier
       (TierStore.startup_load HandlerSamples.parse_string_literal
          (TierStore.save_tier HandlerSamples.empty_storage golden) TierStore.initial)
     = golden
  /\ TierStore.subscriptionTier
       (TierStore.startup_load HandlerSamples.parse_string_literal
          (TierStore.setItem HandlerSamples.empty_storage "creative-suite-tier" "platinum")
          TierStore.initial)
     = free.
Proof.
  assert (Hp : forall t, HandlerSamples.parse_string_literal (TierStore.JSON_stringify_string (TierStore.tier_lit t))
                         = Some (TierStore.JString (TierStore.tier_lit t))).
  { intros t. destruct t; reflexivity. }
  assert (Hl : TierStore.library_ok HandlerSamples.parse_string_literal HandlerSamples.empty_storage).
  { exact I. }
  destruct (TierProofs.tier_persistence HandlerSamples.parse_string_literal HandlerSamples.empty_storage)
    as [H1 _].
  destruct (TierProofs.tier_persistence HandlerSamples.parse_string_literal
              (TierStore.setItem HandlerSamples.empty_storage "creative-suite-tier" "platinum"))
    as [_ H2].
  split; [exact Hp|]. split; [exact Hl|]. split.
  - exact (H1 Hp Hl golden TierStore.initial).
  - refine (proj2 (H2 "platinum" eq_refl _)).
    intros t. destruct t; discriminate.
Defined.

Lemma handleSubmit_loading_settles_witness :
  VideoGeneratorUI.isSubmitDisabled false ExtraSamples.image_form = false
  /\ VideoGenerator.isLoading
       (VideoGenerator.finalState HandlerSamples.initial_vg
          (VideoGenerator.run ExtraSamples.resolving_env ExtraSamples.image_form))
     = false.
Proof.
  assert (H : VideoGeneratorUI.isSubmitDisabled false ExtraSamples.image_form = false) by reflexivity.
  split; [exact H|].
  exact (proj2 (proj2 (SubmitExtraProofs.handleSubmit_loading_settles ExtraSamples.resolving_env
                         ExtraSamples.image_form HandlerSamples.initial_vg H))).
Defined.

Lemma handleSubmit_blank_prompt_witness :
  VideoGenerator.submits ExtraSamples.resolving_env ExtraSamples.blank_form
  /\ JS.trim (VideoGenerator.prompt ExtraSamples.blank_form) = ""
  /\ filter VideoGeneratorUI.isHistory (VideoGenerator.run ExtraSamples.resolving_env ExtraSamples.blank_form) = [].
Proof.
  assert (Hs : VideoGenerator.submits ExtraSamples.resolving_env ExtraSamples.blank_form).
  { split; [reflexivity | exact I]. }
  assert (Ht : JS.trim (VideoGenerator.prompt ExtraSamples.blank_form) = "") by reflexivity.
  split; [exact Hs|]. split; [exact Ht|].
  exact (proj2 (SubmitExtraProofs.handleSubmit_blank_prompt ExtraSamples.resolving_env ExtraSamples.blank_form Hs Ht)).
Defined.


Lemma handleSubmit_success_witness :
  VideoGenerator.submits ExtraSamples.resolving_env HandlerSamples.sample_form
  /\ VideoGenerator.generatedVideo
       (VideoGenerator.finalState HandlerSamples.initial_vg
          (VideoGenerator.run ExtraSamples.resolving_env HandlerSamples.sample_form))
     = Some "blob:https://app.example/5f1c".
Proof.
  assert (Hs : VideoGenerator.submits ExtraSamples.resolving_env HandlerSamples.sample_form).
  { split; [reflexivity | exact I]. }
  split; [exact Hs|].
  exact (proj1 (proj2 (proj2 (proj2
    (SubmitExtraProofs.handleSubmit_success ExtraSamples.resolving_env HandlerSamples.sample_form
       HandlerSamples.initial_vg App.initialState 1700000000000%N "blob:https://app.example/5f1c" Hs eq_refl))))).
Defined.

Lemma handleFileSelect_reject_then_accept_witness :
  VideoGeneratorUI.p_imageFile
    (VideoGeneratorUI.handleFileSelect (fun f => "blob:" ++ VideoGenerator.file_name f) ExtraSamples.png_file
       (VideoGeneratorUI.handleFileSelect (fun f => "blob:" ++ VideoGenerator.file_name f) ExtraSamples.text_file
          VideoGeneratorUI.initialPicker))
  = Some ExtraSamples.png_file.
Proof.
  exact (proj1 (proj2 (proj2 (proj2
    (PickerProofs.handleFileSelect_reject_then_accept (fun f => "blob:" ++ VideoGenerator.file_name f)
       ExtraSamples.text_file ExtraSamples.png_file VideoGeneratorUI.initialPicker eq_refl eq_refl))))).
Defined.

Lemma base64Data_dataURL_witness :
  VideoGeneratorUI.onload ExtraSamples.png_file "data:image/png;base64,QUJD" = (Some "QUJD", "image/png").
Proof.
  apply (proj1 (Base64Proofs.base64Data_dataURL ExtraSamples.png_file "image/png" "QUJD" "")).
  all: intros H; cbn in H; repeat destruct H as [H|H]; try discriminate; exact H.
Defined.

Lemma startup_corrupt_library_witness :
  TierStore.startup_load HandlerSamples.parse_string_literal
    (TierStore.save_tier ExtraSamples.corrupt_storage diamond) TierStore.initial
  = TierStore.initial.
Proof.
  exact (proj2 (StartupProofs.startup_corrupt_library HandlerSamples.parse_string_literal
                  ExtraSamples.corrupt_storage TierStore.initial "[{broken" eq_refl eq_refl eq_refl) diamond).
Defined.

Lemma subscribe_after_upgrade_prompt_witness :
  TierStore.subscriptionTier
    (TierStore.startup_load HandlerSamples.parse_string_literal
       (AppShell.storage (AppShell.handleSetSubscriptionTier golden
          (AppShell.viewPremiumPlans (AppShell.promptUpgrade ExtraSamples.sample_shell))))
       TierStore.initial)
  = golden.
Proof.
  assert (Hp : forall t, HandlerSamples.parse_string_literal (TierStore.JSON_stringify_string (TierStore.tier_lit t))
                         = Some (TierStore.JString (TierStore.tier_lit t))).
  { intros t. destruct t; reflexivity. }
  exact (proj2 (proj2 (proj2 (proj2
    (ShellProofs.subscribe_after_upgrade_prompt HandlerSamples.parse_string_literal ExtraSamples.sample_shell
       golden TierStore.initial Hp I))))).
Defined.

Lemma text_to_image_request_witness :
  filter ImageTools.isRequest
    (ImageTools.handleSubmit ExtraSamples.parse_decimal ExtraSamples.image_env ExtraSamples.text_image_form)
  = [ImageTools.I_RequestImages
       (Service.constructImagePrompt ["a castle on a hill"] "fantasy" "blurry" english illustrator balanced)
       1 ar_4_3 (ImageTools.SeedString "strong")].
Proof.
  exact (ImageToolsProofs.text_to_image_request ExtraSamples.parse_decimal ExtraSamples.image_env
           ExtraSamples.text_image_form eq_refl eq_refl).
Defined.

Lemma text_to_image_results_witness :
  filter ImageTools.isSave
    (ImageTools.handleSubmit ExtraSamples.parse_decimal ExtraSamples.image_env ExtraSamples.text_image_form)
  = [ImageTools.I_SaveImage (Some "d") (ImageTools.currentSettings ExtraSamples.parse_decimal ExtraSamples.text_image_form)
       (Some (ImageTools.Str "ata:image/png;base64,iVBORw0KGgo"))]
  /\ filter ImageTools.isToast
       (ImageTools.handleSubmit ExtraSamples.parse_decimal ExtraSamples.empty_image_env ExtraSamples.text_image_form)
     = [ImageTools.I_SetToast "Image generation failed or returned no images." ToastError].
Proof.
  split.
  - exact (proj1 (proj1 (ImageToolsProofs.text_to_image_results ExtraSamples.parse_decimal ExtraSamples.image_env
             ExtraSamples.text_image_form eq_refl eq_refl) "iVBORw0KGgo" [] eq_refl)).
  - exact (proj2 (proj2 (ImageToolsProofs.text_to_image_results ExtraSamples.parse_decimal ExtraSamples.empty_image_env
             ExtraSamples.text_image_form eq_refl eq_refl) (Some []) eq_refl I)).
Defined.

